(** * Earth.py: the signal-composition engine of [EarthDataAnalyzer]

    A shallow embedding of the data-generation core of [src/Earth.py]
    (the class [EarthDataAnalyzer] up to and including
    [_add_climate_events]) and the properties of it that the
    specification states.

    Conventions of the embedding.
    - Python [float]s are idealised as exact rationals ([Q]); Python
      [int]s are [Z].  A float literal such as [0.002] is the rational
      [2/1000].
    - [numpy]'s global random generator is an explicit state threaded
      through every function that draws from it ([Rand]); what a draw
      returns is left to an instance of the class [NumPy].
    - [np.sin(2 * np.pi * x)] is the method [sin_2pi x] of that class.
    - A [pandas] data frame is the list of its rows, in index order. *)

From Stdlib Require Import String ZArith QArith Qround List Bool Lia Lqa.
From Stdlib Require Import Sorted Finite.
Import ListNotations.

Local Open Scope string_scope.
Local Open Scope list_scope.
Local Open Scope Z_scope.
Local Open Scope Q_scope.

(* ================================================================== *)
(** ** Python built-ins used by the source *)
(* ================================================================== *)

Module Py.

(** Truth value of an [int] used as a condition ([elif 2003:]). *)
Definition truthy (n : Z) : bool := negb (n =? 0)%Z.

(** [a < b] and [a <= b] on floats. *)
Definition lt (a b : Q) : bool := negb (Qle_bool b a).
Definition le (a b : Q) : bool := Qle_bool a b.

(** [min(a, b)]: the first argument unless the second is smaller. *)
Definition min (a b : Q) : Q := if lt b a then b else a.

(** [max(a, b)] and [min(a, b)] on [int]s. *)
Definition imax (a b : Z) : Z := if (a <? b)%Z then b else a.
Definition imin (a b : Z) : Z := if (b <? a)%Z then b else a.

(** [x % 1.0]: the result has the sign of the divisor. *)
Definition mod1 (x : Q) : Q := x - inject_Z (Qfloor x).

(** [len(l)], [range(n)], [l[i]] and [l[lo:hi]] for indices that are
    not negative, which is all the source uses. *)
Definition len {A : Type} (l : list A) : Z := Z.of_nat (length l).

Definition range (n : Z) : list Z := map Z.of_nat (seq 0 (Z.to_nat n)).

Definition item (l : list Q) (i : Z) : Q := nth (Z.to_nat i) l 0.

Definition slice {A : Type} (l : list A) (lo hi : Z) : list A :=
  firstn (Z.to_nat (hi - lo)) (skipn (Z.to_nat lo) l).

(** [x in l] for strings. *)
Definition str_in (x : string) (l : list string) : bool :=
  existsb (String.eqb x) l.

End Py.

(** [np.mean] of a list of floats, as the exact mean of the rationals
    that stand for them; the float result can differ from it in the
    last place. *)
Definition np_sum (l : list Q) : Q := fold_right Qplus 0 l.

Definition np_mean (l : list Q) : Q := np_sum l / inject_Z (Py.len l).

(** The part of [numpy] whose results the source does not determine:
    the generator behind [np.random] and the sine.  A draw takes the
    generator state and returns the sample with the next state;
    [standard_normal] is the sample that [np.random.normal] scales,
    [random_sample] is [np.random.random()]. *)
Class NumPy : Type := {
  RandomState : Type;
  standard_normal : RandomState -> Q * RandomState;
  random_sample : RandomState -> Q * RandomState;
  sin_2pi : Q -> Q
}.

(* ================================================================== *)
(** ** Timestamps and [pd.date_range(..., freq='Y')] *)
(* ================================================================== *)

Module Timestamp.
Record t : Type := make {
  year : Z;
  month : Z;
  day : Z
}.
End Timestamp.

(** [pd.date_range(start=f'{s}-01-01', end=f'{e}-12-31', freq='Y')]:
    the year ends from [s] to [e], for years that a [pandas] timestamp
    can hold (1678 to 2261), which the 1850 and 2025 of [__init__]
    are. *)
Definition pd_date_range (s e : Z) : list Timestamp.t :=
  map (fun k => Timestamp.make (s + Z.of_nat k) 12 31)
      (seq 0 (Z.to_nat (e - s + 1))).

(* ================================================================== *)
(** ** Variable profiles: [_get_earth_config] *)
(* ================================================================== *)

Record earth_config : Type := mkConfig {
  base_value : Q;
  cycle_years : Q;
  amplitude : Q;
  trend : string;
  unit : string;
  description : string
}.

Definition default_config : earth_config :=
  mkConfig 100 1.0 20 "stable" "Unités" "Données terrestres génériques".

(** The dictionary literal [configs], in source order. *)
Definition configs : list (string * earth_config) :=
  [ ("temperature",
     mkConfig 14.0 1.0 15.0 "croissante" "°C" "Température moyenne globale");
    ("co2",
     mkConfig 280 1.0 10 "croissante" "ppm"
              "Concentration de CO2 atmosphérique");
    ("sea_level",
     mkConfig 0 1.0 5 "croissante" "mm" "Élévation du niveau de la mer");
    ("precipitation",
     mkConfig 1000 1.0 300 "variable" "mm/an" "Précipitations annuelles");
    ("glaciers",
     mkConfig 100 10.0 30 "décroissante" "% de masse" "Masse des glaciers");
    ("biodiversity",
     mkConfig 100 10.0 20 "décroissante" "Index de diversité"
              "Diversité biologique");
    ("air_quality",
     mkConfig 50 1.0 30 "variable" "AQI" "Qualité de l'air");
    ("ocean_ph",
     mkConfig 8.1 10.0 0.3 "décroissante" "pH" "Acidification des océans");
    ("default", default_config) ].

(** [d.get(key, default)]. *)
Fixpoint dict_get (d : list (string * earth_config)) (key : string)
    (default : earth_config) : earth_config :=
  match d with
  | [] => default
  | (k, v) :: d' => if String.eqb key k then v else dict_get d' key default
  end.

(** [configs.get(self.data_type, configs["default"])]; the method reads
    only [self.data_type]. *)
Definition _get_earth_config (data_type : string) : earth_config :=
  dict_get configs data_type (dict_get configs "default" default_config).

(** The eight keys offered by [main]. *)
Definition earth_data_types : list string :=
  [ "temperature"; "co2"; "sea_level"; "precipitation";
    "glaciers"; "biodiversity"; "air_quality"; "ocean_ph" ].

(* ================================================================== *)
(** ** The analyzer object *)
(* ================================================================== *)

Record EarthDataAnalyzer : Type := mkAnalyzer {
  data_type : string;
  start_year : Z;
  end_year : Z;
  config : earth_config
}.

Definition __init__ (data_type : string) : EarthDataAnalyzer :=
  mkAnalyzer data_type 1850 2025 (_get_earth_config data_type).

(* ================================================================== *)
(** ** Rows of the data frame *)
(* ================================================================== *)

Record Row : Type := mkRow {
  Year : Z;
  Base_Value : Q;
  Seasonal_Min : Q;
  Seasonal_Max : Q;
  Annual_Cycle : Q;
  Climate_Trend : Q;
  Extreme_Events : Q;
  Human_Impact : Q;
  Smoothed_Value : Q;
  Monthly_Variation : Q;
  Decadal_Variation : Q;
  Environmental_Index : Q;
  Risk_Level : Q;
  Future_Projection : Q
}.

Definition DataFrame : Type := list Row.

Definition set_Base_Value (v : Q) (r : Row) : Row :=
  mkRow (Year r) v (Seasonal_Min r) (Seasonal_Max r) (Annual_Cycle r)
        (Climate_Trend r) (Extreme_Events r) (Human_Impact r)
        (Smoothed_Value r) (Monthly_Variation r) (Decadal_Variation r)
        (Environmental_Index r) (Risk_Level r) (Future_Projection r).

Definition set_Extreme_Events (v : Q) (r : Row) : Row :=
  mkRow (Year r) (Base_Value r) (Seasonal_Min r) (Seasonal_Max r)
        (Annual_Cycle r) (Climate_Trend r) v (Human_Impact r)
        (Smoothed_Value r) (Monthly_Variation r) (Decadal_Variation r)
        (Environmental_Index r) (Risk_Level r) (Future_Projection r).

Definition set_Risk_Level (v : Q) (r : Row) : Row :=
  mkRow (Year r) (Base_Value r) (Seasonal_Min r) (Seasonal_Max r)
        (Annual_Cycle r) (Climate_Trend r) (Extreme_Events r)
        (Human_Impact r) (Smoothed_Value r) (Monthly_Variation r)
        (Decadal_Variation r) (Environmental_Index r) v
        (Future_Projection r).

(** The dictionary [data] of [generate_earth_data]: one list per
    column. *)
Record Data : Type := mkData {
  data_Year : list Z;
  data_Base_Value : list Q;
  data_Seasonal_Min : list Q;
  data_Seasonal_Max : list Q;
  data_Annual_Cycle : list Q;
  data_Climate_Trend : list Q;
  data_Extreme_Events : list Q;
  data_Human_Impact : list Q;
  data_Smoothed_Value : list Q;
  data_Monthly_Variation : list Q;
  data_Decadal_Variation : list Q;
  data_Environmental_Index : list Q;
  data_Risk_Level : list Q;
  data_Future_Projection : list Q
}.

(** Row [i] of the table: entry [i] of every column. *)
Definition data_row (data : Data) (i : nat) : Row :=
  mkRow (nth i (data_Year data) 0%Z)
        (nth i (data_Base_Value data) 0)
        (nth i (data_Seasonal_Min data) 0)
        (nth i (data_Seasonal_Max data) 0)
        (nth i (data_Annual_Cycle data) 0)
        (nth i (data_Climate_Trend data) 0)
        (nth i (data_Extreme_Events data) 0)
        (nth i (data_Human_Impact data) 0)
        (nth i (data_Smoothed_Value data) 0)
        (nth i (data_Monthly_Variation data) 0)
        (nth i (data_Decadal_Variation data) 0)
        (nth i (data_Environmental_Index data) 0)
        (nth i (data_Risk_Level data) 0)
        (nth i (data_Future_Projection data) 0).

(** [pd.DataFrame(data)].  All columns of [generate_earth_data] have
    one entry per date, so the rows are indexed like the [Year] column. *)
Definition pd_DataFrame (data : Data) : DataFrame :=
  map (data_row data) (seq 0 (length (data_Year data))).

(** [df.loc[i, col] = f(df.loc[i, col])] for a row label [i] of the
    frame. *)
Fixpoint loc_update (df : DataFrame) (i : nat) (f : Row -> Row) : DataFrame :=
  match df, i with
  | [], _ => []
  | r :: t, O => f r :: t
  | r :: t, S k => r :: loc_update t k f
  end.

(** [df.iterrows()]: the labels with the rows, as the frame is when the
    loop starts. *)
Definition iterrows (df : DataFrame) : list (nat * Row) :=
  combine (seq 0 (length df)) df.

(* ================================================================== *)
(** ** The piecewise trend curves *)
(* ================================================================== *)

(** The [if]/[elif] chain of [_simulate_climate_trend] chooses, from
    the year [sel], the formula that gives [trend]; the loop body
    applies the chosen formula to the same year. *)
Definition climate_trend_formula (sel : Z) : Z -> Q :=
  if (sel <? 1900)%Z then fun _ => 1.0
  else if (1900 <=? sel)%Z && (sel <? 1950)%Z
       then fun year => 1.0 + 0.002 * inject_Z (year - 1900)
  else if (1950 <=? sel)%Z && (sel <? 1980)%Z
       then fun year => 1.02 + 0.005 * inject_Z (year - 1950)
  else if (1980 <=? sel)%Z && (sel <? 2000)%Z
       then fun year => 1.1 + 0.01 * inject_Z (year - 1980)
  else fun year => 1.3 + 0.015 * inject_Z (year - 2000).

Definition climate_trend (year : Z) : Q := climate_trend_formula year year.

(** The same for [_simulate_human_impact]. *)
Definition human_impact_formula (sel : Z) : Z -> Q :=
  if (sel <? 1800)%Z then fun _ => 1.0
  else if (1800 <=? sel)%Z && (sel <? 1900)%Z
       then fun year => 1.0 + 0.005 * inject_Z (year - 1800)
  else if (1900 <=? sel)%Z && (sel <? 1950)%Z
       then fun year => 1.5 + 0.01 * inject_Z (year - 1900)
  else if (1950 <=? sel)%Z && (sel <? 1980)%Z
       then fun year => 2.0 + 0.02 * inject_Z (year - 1950)
  else if (1980 <=? sel)%Z && (sel <? 2000)%Z
       then fun year => 2.6 + 0.03 * inject_Z (year - 1980)
  else fun year => 3.2 + 0.04 * inject_Z (year - 2000).

Definition human_impact (year : Z) : Q := human_impact_formula year year.

(** The years at which the chains change formula. *)
Definition climate_trend_breakpoints : list Z := [1900; 1950; 1980; 2000]%Z.

Definition human_impact_breakpoints : list Z :=
  [1800; 1900; 1950; 1980; 2000]%Z.

(* ================================================================== *)
(** ** The smoothing window *)
(* ================================================================== *)

(** [base_cycle[max(0, i - 5):min(len(base_cycle), i + 5)]]. *)
Definition smoothing_bounds (n i : Z) : Z * Z :=
  let start_idx := Py.imax 0 (i - 5) in
  let end_idx := Py.imin n (i + 5) in
  (start_idx, end_idx).

Definition smoothing_window (base_cycle : list Q) (i : Z) : list Q :=
  let '(start_idx, end_idx) := smoothing_bounds (Py.len base_cycle) i in
  Py.slice base_cycle start_idx end_idx.

(* ================================================================== *)
(** ** The event overlay: which branch a year takes *)
(* ================================================================== *)

(** The branches of the chain in [_add_climate_events], in source
    order; [NoEvent] is falling through the chain. *)
Inductive Event : Type :=
  | Tambora | DustBowl | ElNino1982 | ElNino1997 | Canicule2003
  | Katrina2005 | Texas2011 | Australia2019 | Record2020 | NoEvent.

Definition event_of_year (year : Z) : Event :=
  if (1815 <=? year)%Z && (year <=? 1816)%Z then Tambora
  else if (1930 <=? year)%Z && (year <=? 1939)%Z then DustBowl
  else if (1982 <=? year)%Z && (year <=? 1983)%Z then ElNino1982
  else if (1997 <=? year)%Z && (year <=? 1998)%Z then ElNino1997
  else if Py.truthy 2003 then Canicule2003
  else if Py.truthy 2005 then Katrina2005
  else if Py.truthy 2011 then Texas2011
  else if Py.truthy 2019 then Australia2019
  else if Py.truthy 2020 then Record2020
  else NoEvent.

(** [df.loc[i, col] *= c] acts on row [i] as one of these. *)
Definition mul_Base_Value (c : Q) (r : Row) : Row :=
  set_Base_Value (Base_Value r * c) r.

Definition mul_Extreme_Events (c : Q) (r : Row) : Row :=
  set_Extreme_Events (Extreme_Events r * c) r.

Definition mul_Risk_Level (c : Q) (r : Row) : Row :=
  set_Risk_Level (Risk_Level r * c) r.

(** [df.loc[i, 'Risk_Level'] = min(100, df.loc[i, 'Risk_Level'] * 1.4)]. *)
Definition cap_Risk_Level (c : Q) (r : Row) : Row :=
  set_Risk_Level (Py.min 100 (Risk_Level r * c)) r.

(** The assignments of each branch, in the order they are executed. *)
Definition event_assignments (self : EarthDataAnalyzer) (ev : Event)
    : list (Row -> Row) :=
  match ev with
  | Tambora => [mul_Base_Value 0.9; mul_Risk_Level 1.2]
  | DustBowl =>
      if Py.str_in (data_type self) ["temperature"; "precipitation"]
      then [mul_Base_Value 1.1; mul_Risk_Level 1.3] else []
  | ElNino1982 => [mul_Base_Value 1.05; mul_Extreme_Events 1.5]
  | ElNino1997 => [mul_Base_Value 1.08; mul_Extreme_Events 1.8]
  | Canicule2003 =>
      if String.eqb (data_type self) "temperature"
      then [mul_Base_Value 1.1; cap_Risk_Level 1.4] else []
  | Katrina2005 => [mul_Extreme_Events 1.6]
  | Texas2011 => [mul_Risk_Level 1.3]
  | Australia2019 =>
      if Py.str_in (data_type self) ["temperature"; "air_quality"]
      then [mul_Base_Value 1.05; mul_Risk_Level 1.2] else []
  | Record2020 =>
      if String.eqb (data_type self) "temperature"
      then [mul_Base_Value 1.02] else []
  | NoEvent => []
  end.

(** One iteration of the loop: the branch is chosen from the year of
    the row that [iterrows] yielded, the assignments go to [df.loc[i]]. *)
Definition climate_event_step (self : EarthDataAnalyzer) (df : DataFrame)
    (it : nat * Row) : DataFrame :=
  let '(i, row) := it in
  let year := Year row in
  fold_left (fun df f => loc_update df i f)
            (event_assignments self (event_of_year year)) df.

Definition _add_climate_events (self : EarthDataAnalyzer) (df : DataFrame)
    : DataFrame :=
  fold_left (climate_event_step self) (iterrows df) df.

(** What the pass does to a single row: the assignments of the row's
    branch, applied to the row itself. *)
Definition overlay_row (self : EarthDataAnalyzer) (r : Row) : Row :=
  fold_left (fun r f => f r) (event_assignments self (event_of_year (Year r))) r.

(* ================================================================== *)
(** ** The generators *)
(* ================================================================== *)

Section Generators.

Context {np : NumPy}.

(** A computation that may draw from [np.random]. *)
Definition Rand (A : Type) : Type := RandomState -> A * RandomState.

Definition ret {A : Type} (a : A) : Rand A := fun g => (a, g).

Definition bind {A B : Type} (m : Rand A) (k : A -> Rand B) : Rand B :=
  fun g => let r := m g in k (fst r) (snd r).

Notation "x <- m ;; k" := (bind m (fun x => k))
  (at level 61, m at next level, right associativity).

(** [for x in xs: ...; out.append(v)]: the body runs once per element,
    in order, and the results are collected. *)
Fixpoint for_each {A B : Type} (body : A -> Rand B) (xs : list A)
    : Rand (list B) :=
  match xs with
  | [] => ret []
  | x :: xs' =>
      v <- body x ;;
      out <- for_each body xs' ;;
      ret (v :: out)
  end.

(** [np.random.normal(loc, scale)] and [np.random.random()]. *)
Definition np_random_normal (loc scale : Q) : Rand Q :=
  fun g => let z := standard_normal g in (loc + scale * fst z, snd z).

Definition np_random_random : Rand Q := random_sample.

(** [enumerate(dates)]. *)
Definition enumerate {A : Type} (xs : list A) : list (Z * A) :=
  combine (Py.range (Py.len xs)) xs.

Definition _simulate_earth_cycle (self : EarthDataAnalyzer)
    (dates : list Timestamp.t) : Rand (list Q) :=
  let base_value := base_value (config self) in
  let cycle_years := cycle_years (config self) in
  let amplitude := amplitude (config self) in
  for_each (fun date =>
    let year := Timestamp.year date in
    let annual_cycle :=
      sin_2pi (inject_Z (year - start_year self) / cycle_years) in
    let trend_factor :=
      if String.eqb (trend (config self)) "croissante"
      then 1 + 0.01 * inject_Z (year - 1850) / 100
      else if String.eqb (trend (config self)) "décroissante"
      then 1 - 0.01 * inject_Z (year - 1850) / 100
      else 1.0 in
    let value := base_value * trend_factor + amplitude * annual_cycle in
    noise <- np_random_normal 0 (amplitude * 0.05) ;;
    ret (value + noise)) dates.

Definition _simulate_seasonal_minima (self : EarthDataAnalyzer)
    (dates : list Timestamp.t) : list Q :=
  map (fun date =>
    let year := Timestamp.year date in
    let seasonal_phase := Py.mod1 (inject_Z (year - start_year self)) in
    if String.eqb (data_type self) "temperature"
    then if Py.lt seasonal_phase 0.25 || Py.lt 0.75 seasonal_phase
         then 0.7 else 1.0
    else 0.8 + 0.2 * sin_2pi seasonal_phase) dates.

Definition _simulate_seasonal_maxima (self : EarthDataAnalyzer)
    (dates : list Timestamp.t) : list Q :=
  map (fun date =>
    let year := Timestamp.year date in
    let seasonal_phase := Py.mod1 (inject_Z (year - start_year self)) in
    if String.eqb (data_type self) "temperature"
    then if Py.le 0.25 seasonal_phase && Py.le seasonal_phase 0.75
         then 1.0 else 0.8
    else 1.0 + 0.2 * sin_2pi seasonal_phase) dates.

Definition _simulate_annual_cycle (self : EarthDataAnalyzer)
    (dates : list Timestamp.t) : list Q :=
  map (fun date =>
    let year := Timestamp.year date in
    Py.mod1 (inject_Z (year - start_year self))) dates.

Definition _simulate_climate_trend (self : EarthDataAnalyzer)
    (dates : list Timestamp.t) : list Q :=
  map (fun date => climate_trend (Timestamp.year date)) dates.

Definition _simulate_extreme_events (self : EarthDataAnalyzer)
    (dates : list Timestamp.t) : Rand (list Q) :=
  for_each (fun date =>
    let year := Timestamp.year date in
    let base_prob := 0.1 in
    let time_factor := 0.001 * inject_Z (year - 1850) in
    let extreme_prob := Py.min 0.8 (base_prob + time_factor) in
    u <- np_random_random ;;
    ret (if Py.lt u extreme_prob
         then 1.0 + 0.5 * inject_Z (year - 1850) / 100
         else 1.0)) dates.

Definition _simulate_human_impact (self : EarthDataAnalyzer)
    (dates : list Timestamp.t) : list Q :=
  map (fun date => human_impact (Timestamp.year date)) dates.

Definition _simulate_smoothed_data (self : EarthDataAnalyzer)
    (dates : list Timestamp.t) : Rand (list Q) :=
  base_cycle <- _simulate_earth_cycle self dates ;;
  ret (map (fun i => np_mean (smoothing_window base_cycle i))
           (Py.range (Py.len base_cycle))).

Definition _simulate_monthly_variation (self : EarthDataAnalyzer)
    (dates : list Timestamp.t) : list Q :=
  map (fun date =>
    let month := Timestamp.month date in
    let seasonal_variation := 0.1 * sin_2pi (inject_Z (month - 1) / 12) in
    1 + seasonal_variation) dates.

Definition _simulate_decadal_variation (self : EarthDataAnalyzer)
    (dates : list Timestamp.t) : list Q :=
  map (fun date =>
    let year := Timestamp.year date in
    let decadal_variation :=
      0.05 * sin_2pi (inject_Z (year - start_year self) / 10) in
    1 + decadal_variation) dates.

Definition _simulate_environmental_index (self : EarthDataAnalyzer)
    (dates : list Timestamp.t) : Rand (list Q) :=
  base_cycle <- _simulate_earth_cycle self dates ;;
  let climate_trend := _simulate_climate_trend self dates in
  ret (map (fun i =>
              Py.item base_cycle i * 0.6
              + Py.item climate_trend i * base_value (config self) * 0.4)
           (Py.range (Py.len dates))).

Definition _simulate_risk_level (self : EarthDataAnalyzer)
    (dates : list Timestamp.t) : Rand (list Q) :=
  let human_impact := _simulate_human_impact self dates in
  extreme_events <- _simulate_extreme_events self dates ;;
  ret (map (fun i =>
              Py.min 100 (Py.item human_impact i * 20
                          + (Py.item extreme_events i - 1) * 50))
           (Py.range (Py.len dates))).

Definition _simulate_future_projection (self : EarthDataAnalyzer)
    (dates : list Timestamp.t) : Rand (list Q) :=
  base_cycle <- _simulate_earth_cycle self dates ;;
  let climate_trend := _simulate_climate_trend self dates in
  for_each (fun '(i, date) =>
    let year := Timestamp.year date in
    let current_value := Py.item base_cycle i in
    let trend_factor := Py.item climate_trend i in
    if (2020 <? year)%Z then
      let years_since_2020 := (year - 2020)%Z in
      let uncertainty := 0.03 * inject_Z years_since_2020 in
      if String.eqb (trend (config self)) "croissante" then
        n <- np_random_normal 0.02 uncertainty ;;
        ret (current_value * trend_factor * (1 + n))
      else if String.eqb (trend (config self)) "décroissante" then
        n <- np_random_normal 0.01 uncertainty ;;
        ret (current_value * trend_factor * (1 - n))
      else
        n <- np_random_normal 0 uncertainty ;;
        ret (current_value * (1 + n))
    else ret current_value) (enumerate dates).

(** The dates of a run. *)
Definition earth_dates (self : EarthDataAnalyzer) : list Timestamp.t :=
  pd_date_range (start_year self) (end_year self).

(** [generate_earth_data], in three steps.  First the dictionary
    [data], column by column in source order. *)
Definition earth_data (self : EarthDataAnalyzer) : Rand Data :=
  let dates := earth_dates self in
  let Year := map Timestamp.year dates in
  Base_Value <- _simulate_earth_cycle self dates ;;
  let Seasonal_Min := _simulate_seasonal_minima self dates in
  let Seasonal_Max := _simulate_seasonal_maxima self dates in
  let Annual_Cycle := _simulate_annual_cycle self dates in
  let Climate_Trend := _simulate_climate_trend self dates in
  Extreme_Events <- _simulate_extreme_events self dates ;;
  let Human_Impact := _simulate_human_impact self dates in
  Smoothed_Value <- _simulate_smoothed_data self dates ;;
  let Monthly_Variation := _simulate_monthly_variation self dates in
  let Decadal_Variation := _simulate_decadal_variation self dates in
  Environmental_Index <- _simulate_environmental_index self dates ;;
  Risk_Level <- _simulate_risk_level self dates ;;
  Future_Projection <- _simulate_future_projection self dates ;;
  ret (mkData Year Base_Value Seasonal_Min Seasonal_Max Annual_Cycle
              Climate_Trend Extreme_Events Human_Impact Smoothed_Value
              Monthly_Variation Decadal_Variation Environmental_Index
              Risk_Level Future_Projection).

(** Then [df = pd.DataFrame(data)]: the frame before the overlay. *)
Definition earth_data_frame (self : EarthDataAnalyzer) : Rand DataFrame :=
  data <- earth_data self ;;
  ret (pd_DataFrame data).

(** Then [self._add_climate_events(df)] and [return df]. *)
Definition generate_earth_data (self : EarthDataAnalyzer) : Rand DataFrame :=
  df <- earth_data_frame self ;;
  ret (_add_climate_events self df).

(** The generator state at which each step that draws starts, for a
    run of [generate_earth_data] started in state [g]. *)
Definition rng_at_extreme_events (self : EarthDataAnalyzer)
    (g : RandomState) : RandomState :=
  snd (_simulate_earth_cycle self (earth_dates self) g).

Definition rng_at_smoothed_data (self : EarthDataAnalyzer)
    (g : RandomState) : RandomState :=
  snd (_simulate_extreme_events self (earth_dates self)
         (rng_at_extreme_events self g)).

Definition rng_at_environmental_index (self : EarthDataAnalyzer)
    (g : RandomState) : RandomState :=
  snd (_simulate_smoothed_data self (earth_dates self)
         (rng_at_smoothed_data self g)).

Definition rng_at_risk_level (self : EarthDataAnalyzer)
    (g : RandomState) : RandomState :=
  snd (_simulate_environmental_index self (earth_dates self)
         (rng_at_environmental_index self g)).

Definition rng_at_future_projection (self : EarthDataAnalyzer)
    (g : RandomState) : RandomState :=
  snd (_simulate_risk_level self (earth_dates self)
         (rng_at_risk_level self g)).

End Generators.

(* ================================================================== *)
(** ** A concrete [numpy] for running the model *)
(* ================================================================== *)

(** Bhaskara's rational approximation of [sin (pi t)] on [0 <= t <= 1];
    it is exact at [0], [1/6], [1/2], [5/6] and [1]. *)
Definition sin_pi_bhaskara (t : Q) : Q :=
  16 * t * (1 - t) / (5 - 4 * t * (1 - t)).

(** [sin (2 pi x)]: exact where [x] is a whole number of turns, which is
    every argument a profile with [cycle_years = 1] produces. *)
Definition sin_2pi_bhaskara (x : Q) : Q :=
  let f := Py.mod1 x in
  Qred (if Qle_bool f 0.5 then sin_pi_bhaskara (2 * f)
        else - sin_pi_bhaskara (2 * f - 1)).

(** A generator whose state counts the draws made so far; the samples
    cycle through fixed values. *)
Definition counting_numpy : NumPy := {|
  RandomState := Z;
  standard_normal := fun g => (inject_Z (g mod 7 - 3) / 2, (g + 1)%Z);
  random_sample := fun g => (inject_Z (g mod 10) / 10, (g + 1)%Z);
  sin_2pi := sin_2pi_bhaskara
|}.

(** A generator with no noise: every normal sample is [0] and every
    uniform sample is [0.5]. *)
Definition silent_numpy : NumPy := {|
  RandomState := Datatypes.unit;
  standard_normal := fun g => (0, g);
  random_sample := fun g => (0.5, g);
  sin_2pi := sin_2pi_bhaskara
|}.

(* ================================================================== *)
(** ** The specification's reading of two derived columns *)
(* ================================================================== *)



(* ================================================================== *)
(** ** Exceptions *)
(* ================================================================== *)

(** The two exceptions the source handles or can meet in the code
    modelled below. *)
Inductive PyError : Type := ValueError | IndexError.

(** A computation that returns a value or raises. *)
Inductive Try (A : Type) : Type :=
  | Returns (a : A)
  | Raises (e : PyError).

Arguments Returns {A} a.
Arguments Raises {A} e.

Definition try_bind {A B : Type} (m : Try A) (k : A -> Try B) : Try B :=
  match m with
  | Returns a => k a
  | Raises e => Raises e
  end.

Notation "x <-? m ;; k" := (try_bind m (fun x => k))
  (at level 61, m at next level, right associativity).

(* ================================================================== *)
(** ** [main]: the choice of the variable type *)
(* ================================================================== *)

(** [l[i]] on a list: a negative index counts from the end, an index
    out of range raises [IndexError]. *)
Definition list_getitem (l : list string) (i : Z) : Try string :=
  let j := if (i <? 0)%Z then (i + Py.len l)%Z else i in
  if (j <? 0)%Z then Raises IndexError
  else match nth_error l (Z.to_nat j) with
       | Some x => Returns x
       | None => Raises IndexError
       end.

(** The body of the [try] in [main].  [entered] is what
    [int(input(...))] gives: the integer, or [ValueError] when the
    text is not one. *)
Definition main_try (entered : Try Z) : Try string :=
  choix <-? entered ;;
  if (choix <? 1)%Z || (Py.len earth_data_types <? choix)%Z
  then Raises ValueError
  else list_getitem earth_data_types (choix - 1).

(** [selected_type] after the [try]/[except (ValueError, IndexError)]. *)
Definition main_selected_type (entered : Try Z) : string :=
  match main_try entered with
  | Returns selected_type => selected_type
  | Raises ValueError => "temperature"
  | Raises IndexError => "temperature"
  end.

(** [analyzer = EarthDataAnalyzer(selected_type)] and the name of the
    file the data is saved to. *)
Definition main_analyzer (entered : Try Z) : EarthDataAnalyzer :=
  __init__ (main_selected_type entered).

Definition main_output_file (entered : Try Z) : string :=
  "earth_" ++ main_selected_type entered ++ "_data_1850_2025.csv".

(* ================================================================== *)
(** ** [_generate_earth_insights]: the figures it reports *)
(* ================================================================== *)

(** [s.iloc[0]] and [s.iloc[-1]] of a column. *)
Definition iloc_first (s : list Q) : Try Q :=
  match s with
  | [] => Raises IndexError
  | x :: _ => Returns x
  end.

Definition iloc_last (s : list Q) : Try Q :=
  match nth_error s (length s - 1) with
  | Some x => Returns x
  | None => Raises IndexError
  end.

(** [s.max()] and [s.min()] of a column.  Of an empty column they are
    [nan]; the function raises on an empty frame before using them, and
    [0] stands for them here. *)
Definition Series_max (s : list Q) : Q :=
  match s with
  | [] => 0
  | x :: t => fold_left (fun m y => if Py.lt m y then y else m) t x
  end.

Definition Series_min (s : list Q) : Q :=
  match s with
  | [] => 0
  | x :: t => fold_left (fun m y => if Py.lt y m then y else m) t x
  end.

(** [a / b] on floats of [numpy]: a division by zero does not raise,
    it gives [inf] or [nan], for which [None] stands. *)
Definition np_divide (a b : Q) : option Q :=
  if Qeq_bool b 0 then None else Some (a / b).

(** [(a / b - 1) * 100]. *)
Definition percent_change (a b : Q) : option Q :=
  option_map (fun q => (q - 1) * 100) (np_divide a b).

(** [df[df['Year'] >= 2000]]. *)
Definition since_2000 (df : DataFrame) : DataFrame :=
  filter (fun r => (2000 <=? Year r)%Z) df.

(** The figures and messages that the function prints. *)
Record Insights : Type := mkInsights {
  avg_value : Q;
  max_value : Q;
  min_value : Q;
  current_value : Q;
  total_change : option Q;
  recent_change : option Q;
  current_risk : Q;
  risk_trend : option Q;
  risk_message : string;
  human_impact_current : Q;
  human_growth : option Q;
  future_change : option Q;
  trend_message : string
}.

(** The function without its output: each figure is computed as in the
    source and in the same order, so the first failing [iloc] decides
    the exception. *)
Definition _generate_earth_insights (self : EarthDataAnalyzer)
    (df : DataFrame) : Try Insights :=
  let avg_value := np_mean (map Base_Value df) in
  let max_value := Series_max (map Base_Value df) in
  let min_value := Series_min (map Base_Value df) in
  current_value <-? iloc_last (map Base_Value df) ;;
  base_last <-? iloc_last (map Base_Value df) ;;
  base_first <-? iloc_first (map Base_Value df) ;;
  let total_change := percent_change base_last base_first in
  base_2000 <-? iloc_first (map Base_Value (since_2000 df)) ;;
  let recent_change := percent_change base_last base_2000 in
  current_risk <-? iloc_last (map Risk_Level df) ;;
  risk_2000 <-? iloc_first (map Risk_Level (since_2000 df)) ;;
  let risk_trend := percent_change current_risk risk_2000 in
  let risk_message :=
    if Py.lt 70 current_risk then "→ Niveau de risque ÉLEVÉ"
    else if Py.lt 40 current_risk then "→ Niveau de risque MODÉRÉ"
    else "→ Niveau de risque FAIBLE" in
  human_impact_current <-? iloc_last (map Human_Impact df) ;;
  human_first <-? iloc_first (map Human_Impact df) ;;
  let human_growth := percent_change human_impact_current human_first in
  projection_last <-? iloc_last (map Future_Projection df) ;;
  let future_change := percent_change projection_last base_last in
  let trend_message :=
    if String.eqb (trend (config self)) "croissante"
    then "→ Tendance à la hausse prévue"
    else if String.eqb (trend (config self)) "décroissante"
    then "→ Tendance à la baisse prévue"
    else "→ Stabilité relative prévue" in
  Returns (mkInsights avg_value max_value min_value current_value
                      total_change recent_change current_risk risk_trend
                      risk_message human_impact_current human_growth
                      future_change trend_message).

(* ================================================================== *)
(** * Properties *)
(* ================================================================== *)

(** ** Arithmetic helpers *)

Lemma inject_Z_sub (a b : Z) : inject_Z (a - b) = inject_Z a - inject_Z b.
Proof.
  unfold Z.sub. rewrite inject_Z_plus, inject_Z_opp. reflexivity.
Qed.

(** Integer constants under [inject_Z] become rational constants, which
    is the form linear arithmetic over [Q] reads. *)
Ltac zq_consts :=
  repeat match goal with
  | H : context [inject_Z (Zpos ?p)] |- _ =>
      change (inject_Z (Zpos p)) with (Zpos p # 1) in H
  | |- context [inject_Z (Zpos ?p)] =>
      change (inject_Z (Zpos p)) with (Zpos p # 1)
  end.

(** Turns the integer comparisons in the context into rational ones. *)
Ltac z_to_q :=
  repeat match goal with
  | H : (_ <= _)%Z |- _ => rewrite Zle_Qle in H
  | H : (_ < _)%Z |- _ => rewrite Zlt_Qlt in H
  end;
  rewrite ?inject_Z_sub in *; zq_consts.

(** Division by the constant 100, as a product. *)
Lemma Qdiv_100 (x : Q) : x / 100 == x * 0.01.
Proof. field. Qed.

Ltac div_consts :=
  repeat match goal with
  | H : context [_ / 100] |- _ => rewrite Qdiv_100 in H
  end;
  rewrite ?Qdiv_100.

Lemma Py_lt_spec (a b : Q) : reflect (a < b) (Py.lt a b).
Proof.
  unfold Py.lt. destruct (Qle_bool b a) eqn:E; constructor.
  - apply Qle_bool_iff in E. lra.
  - assert (Hn : ~ b <= a) by (rewrite <- Qle_bool_iff; congruence). lra.
Qed.

Lemma Py_min_le_l (a b : Q) : Py.min a b <= a.
Proof. unfold Py.min. destruct (Py_lt_spec b a); lra. Qed.

Lemma Py_min_le_r (a b : Q) : Py.min a b <= b.
Proof. unfold Py.min. destruct (Py_lt_spec b a); lra. Qed.

Lemma Py_min_glb (a b c : Q) : c <= a -> c <= b -> c <= Py.min a b.
Proof. unfold Py.min. destruct (Py_lt_spec b a); lra. Qed.

Lemma Py_imax_spec (a b : Z) : Py.imax a b = Z.max a b.
Proof. unfold Py.imax. destruct (Z.ltb_spec a b); lia. Qed.

Lemma Py_imin_spec (a b : Z) : Py.imin a b = Z.min a b.
Proof. unfold Py.imin. destruct (Z.ltb_spec b a); lia. Qed.

(* ------------------------------------------------------------------ *)
(** ** Profile lookup *)
(* ------------------------------------------------------------------ *)

Lemma default_config_lookup : dict_get configs "default" default_config = default_config.
Proof. reflexivity. Qed.

Lemma get_earth_config_unknown (key : string) :
  ~ In key earth_data_types -> _get_earth_config key = default_config.
Proof.
  intros Hni. unfold _get_earth_config. rewrite default_config_lookup.
  unfold configs, dict_get.
  repeat match goal with
  | |- context [String.eqb key ?k] =>
      destruct (String.eqb_spec key k) as [-> | _];
      [ try reflexivity; exfalso; apply Hni; simpl; tauto | ]
  end.
  reflexivity.
Qed.

(** C8, as the code has it.  Every key offered by [main] has a profile
    with [amplitude >= 0] and [cycle_years > 0]; every other key gets
    the default profile, whose fields are [base_value = 100],
    [cycle_years = 1], [amplitude = 20], [trend = "stable"] (neither the
    increasing nor the decreasing trend) and [unit = "Unités"]. *)
Theorem get_earth_config_profiles :
  (forall key, In key earth_data_types ->
     0 <= amplitude (_get_earth_config key)
     /\ 0 < cycle_years (_get_earth_config key))
  /\ (forall key, ~ In key earth_data_types ->
        let c := _get_earth_config key in
        c = default_config
        /\ base_value c == 100 /\ cycle_years c == 1 /\ amplitude c == 20
        /\ trend c = "stable" /\ unit c = "Unités"
        /\ String.eqb (trend c) "croissante" = false
        /\ String.eqb (trend c) "décroissante" = false).
Proof.
  split.
  - intros key Hin. simpl in Hin.
    repeat (destruct Hin as [<- | Hin]; [vm_compute; split; [discriminate | reflexivity] | ]).
    contradiction.
  - intros key Hni c. subst c. rewrite (get_earth_config_unknown key Hni).
    repeat split; reflexivity.
Qed.

(** The two parts of [get_earth_config_profiles] at concrete keys. *)
Lemma get_earth_config_profiles_witness :
  (0 <= amplitude (_get_earth_config "glaciers")
   /\ 0 < cycle_years (_get_earth_config "glaciers"))
  /\ _get_earth_config "volcano" = default_config.
Proof.
  split.
  - apply (proj1 get_earth_config_profiles). simpl. tauto.
  - apply (proj2 get_earth_config_profiles "volcano").
    simpl. intros H.
    repeat (destruct H as [H | H]; [discriminate H | ]). exact H.
Defined.

(** C8 as stated fails on the literals: the default profile's trend is
    not the string of the variable profiles and its unit is not
    ["units"]. *)
Lemma get_earth_config_default_literals :
  trend (_get_earth_config "volcano") <> "variable"
  /\ unit (_get_earth_config "volcano") <> "units".
Proof. split; vm_compute; discriminate. Qed.

(* ------------------------------------------------------------------ *)
(** ** Trend curves *)
(* ------------------------------------------------------------------ *)

(** The human-impact chain continues at each of its breakpoints. *)
Lemma human_impact_continuous :
  Forall (fun b => human_impact_formula (b - 1) b == human_impact_formula b b)
         human_impact_breakpoints.
Proof. repeat constructor. Qed.

(** Proves [b = test] for a test made of integer comparisons. *)
Ltac test_value :=
  repeat match goal with
  | |- context [(?a <? ?b)%Z] => destruct (Z.ltb_spec a b)
  | |- context [(?a <=? ?b)%Z] => destruct (Z.leb_spec a b)
  end;
  cbn [andb orb negb]; first [reflexivity | lia].

(** Decides every integer test of the goal from the context. *)
Ltac decide_tests :=
  repeat match goal with
  | |- context [andb ?s ?t] =>
      first [ replace (andb s t) with true by test_value
            | replace (andb s t) with false by test_value ]
  | |- context [(?a <? ?b)%Z] =>
      first [ replace (a <? b)%Z with true by test_value
            | replace (a <? b)%Z with false by test_value ]
  | |- context [(?a <=? ?b)%Z] =>
      first [ replace (a <=? b)%Z with true by test_value
            | replace (a <=? b)%Z with false by test_value ]
  end.

(** The segments of the two trend chains. *)
Lemma trend_segments (y : Z) :
  (y < 1800 \/ 1800 <= y < 1900 \/ 1900 <= y < 1950 \/ 1950 <= y < 1980
   \/ 1980 <= y < 2000 \/ 2000 <= y)%Z.
Proof. lia. Qed.

Ltac by_segment y :=
  let H := fresh "Hseg" in
  destruct (trend_segments y) as [H | [H | [H | [H | [H | H]]]]].

Ltac split_bounds :=
  repeat match goal with
  | H : (_ <= _ < _)%Z |- _ => destruct H
  | H : (_ <= _ <= _)%Z |- _ => destruct H
  end.

Lemma human_impact_monotone (y1 y2 : Z) :
  (y1 <= y2)%Z -> human_impact y1 <= human_impact y2.
Proof.
  intros H. unfold human_impact, human_impact_formula.
  by_segment y1; by_segment y2; try lia;
    decide_tests; split_bounds; z_to_q; lra.
Qed.

Lemma human_impact_ge_1 (y : Z) : 1 <= human_impact y.
Proof.
  unfold human_impact, human_impact_formula.
  by_segment y; decide_tests; split_bounds; z_to_q; lra.
Qed.

(** The climate-trend chain continues at 1900 and at 2000. *)
Lemma climate_trend_continuous_1900_2000 :
  climate_trend_formula 1899 1900 == climate_trend_formula 1900 1900
  /\ climate_trend_formula 1999 2000 == climate_trend_formula 2000 2000.
Proof. split; reflexivity. Qed.

(** C1 fails on the climate-trend chain.  At 1950 the formula of the
    years before gives [1.1] and the chain gives [1.02]; at 1980 the
    formula of the years before gives [1.17] and the chain gives [1.1];
    the curve falls from 1949 to 1950 and from 1979 to 1980, and so
    does the column that [_simulate_climate_trend] returns for the
    dates of a run, at the rows 99, 100 and 129, 130. *)
Theorem climate_trend_jumps :
  climate_trend_formula 1949 1950 == 1.1
  /\ climate_trend 1950 == 1.02
  /\ climate_trend_formula 1979 1980 == 1.17
  /\ climate_trend 1980 == 1.1
  /\ climate_trend 1950 < climate_trend 1949
  /\ climate_trend 1980 < climate_trend 1979
  /\ (forall self : EarthDataAnalyzer,
        let column := _simulate_climate_trend self (pd_date_range 1850 2025) in
        nth 99 column 0 == 1.098 /\ nth 100 column 0 == 1.02
        /\ nth 129 column 0 == 1.165 /\ nth 130 column 0 == 1.1).
Proof.
  repeat split.
Qed.

(* ------------------------------------------------------------------ *)
(** ** The branch chain of the event overlay *)
(* ------------------------------------------------------------------ *)

(** The year ranges that the chain tests, and the rest. *)
Lemma event_ranges (y : Z) :
  (1815 <= y <= 1816 \/ 1930 <= y <= 1939 \/ 1982 <= y <= 1983
   \/ 1997 <= y <= 1998
   \/ (~ 1815 <= y <= 1816 /\ ~ 1930 <= y <= 1939 /\ ~ 1982 <= y <= 1983
       /\ ~ 1997 <= y <= 1998))%Z.
Proof. lia. Qed.

(** A year from 2003 on that is outside 1982-1983 and 1997-1998 takes
    the 2003 branch of the chain, and no year takes the 2005, 2011,
    2019 or 2020 branch. *)
Lemma event_of_year_from_2003 (year : Z) :
  ((2003 <= year)%Z -> ~ (1982 <= year <= 1983)%Z ->
   ~ (1997 <= year <= 1998)%Z -> event_of_year year = Canicule2003)
  /\ event_of_year year <> Katrina2005
  /\ event_of_year year <> Texas2011
  /\ event_of_year year <> Australia2019
  /\ event_of_year year <> Record2020.
Proof.
  unfold event_of_year.
  change (Py.truthy 2003) with true. cbv iota.
  destruct (event_ranges year) as [H | [H | [H | [H | H]]]];
    decide_tests; repeat split; intros; try discriminate;
    try reflexivity; lia.
Qed.

(* ------------------------------------------------------------------ *)
(** ** The smoothing window *)
(* ------------------------------------------------------------------ *)

Lemma Py_slice_length {A : Type} (l : list A) (lo hi : Z) :
  (0 <= lo <= hi)%Z -> (hi <= Py.len l)%Z ->
  Py.len (Py.slice l lo hi) = (hi - lo)%Z.
Proof.
  unfold Py.len, Py.slice. intros Hlo Hhi.
  rewrite length_firstn, length_skipn. lia.
Qed.

Lemma Py_slice_nth {A : Type} (l : list A) (lo hi : Z) (k : nat) (d : A) :
  (0 <= lo)%Z -> (Z.of_nat k < hi - lo)%Z ->
  nth k (Py.slice l lo hi) d = nth (Z.to_nat lo + k) l d.
Proof.
  unfold Py.slice. intros Hlo Hk.
  rewrite nth_firstn.
  replace (k <? Z.to_nat (hi - lo))%nat with true
    by (symmetry; apply Nat.ltb_lt; lia).
  apply nth_skipn.
Qed.

Lemma smoothing_window_slice (l : list Q) (i : Z) :
  smoothing_window l i
  = Py.slice l (Z.max 0 (i - 5)) (Z.min (Py.len l) (i + 5)).
Proof.
  unfold smoothing_window, smoothing_bounds.
  rewrite Py_imax_spec, Py_imin_spec. reflexivity.
Qed.

Lemma smoothing_window_length (l : list Q) (i : Z) :
  (0 <= i < Py.len l)%Z ->
  Py.len (smoothing_window l i)
  = (Z.min (Py.len l) (i + 5) - Z.max 0 (i - 5))%Z.
Proof.
  intros Hi. rewrite smoothing_window_slice. apply Py_slice_length; lia.
Qed.

(** C6, as the code has it.  At an index [0 <= i < n] of a sequence of
    length [n] the window is the slice from [max(0, i-5)] up to, and
    excluding, [min(n, i+5)], so it has [min(n, i+5) - max(0, i-5)]
    entries, those of the sequence from [max(0, i-5)] on.  That is:
    ten entries, [i-5 .. i+4], when [5 <= i] and [i+5 <= n]; [i+5]
    entries when [i < 5] and [i+5 <= n]; [n-i+5] entries when [5 <= i]
    and [n < i+5]; and all [n] entries when [i < 5] and [n < i+5].
    For [n = 176] the windows at the indices 0, 4, 5, 170 and 175 are
    [[0,5)], [[0,9)], [[0,10)], [[165,175)] and [[170,176)]. *)
Theorem smoothing_window_shape (l : list Q) (i : Z) :
  (0 <= i < Py.len l)%Z ->
  smoothing_bounds (Py.len l) i
  = (Z.max 0 (i - 5), Z.min (Py.len l) (i + 5))
  /\ smoothing_window l i
     = Py.slice l (Z.max 0 (i - 5)) (Z.min (Py.len l) (i + 5))
  /\ Py.len (smoothing_window l i)
     = (Z.min (Py.len l) (i + 5) - Z.max 0 (i - 5))%Z
  /\ (forall k : nat,
        (Z.of_nat k < Py.len (smoothing_window l i))%Z ->
        nth k (smoothing_window l i) 0
        = nth (Z.to_nat (Z.max 0 (i - 5)) + k) l 0)
  /\ ((5 <= i)%Z -> (i + 5 <= Py.len l)%Z ->
      Py.len (smoothing_window l i) = 10%Z
      /\ forall k, (k < 10)%nat ->
           nth k (smoothing_window l i) 0 = nth (Z.to_nat (i - 5) + k) l 0)
  /\ ((i < 5)%Z -> (i + 5 <= Py.len l)%Z ->
      Py.len (smoothing_window l i) = (i + 5)%Z)
  /\ ((5 <= i)%Z -> (Py.len l < i + 5)%Z ->
      Py.len (smoothing_window l i) = (Py.len l - i + 5)%Z)
  /\ ((i < 5)%Z -> (Py.len l < i + 5)%Z ->
      Py.len (smoothing_window l i) = Py.len l)
  /\ (Py.len l = 176%Z ->
      smoothing_bounds (Py.len l) 0 = (0, 5)%Z
      /\ smoothing_bounds (Py.len l) 4 = (0, 9)%Z
      /\ smoothing_bounds (Py.len l) 5 = (0, 10)%Z
      /\ smoothing_bounds (Py.len l) 170 = (165, 175)%Z
      /\ smoothing_bounds (Py.len l) 175 = (170, 176)%Z).
Proof.
  intros Hi. pose proof (smoothing_window_length l i Hi) as Hlen.
  split.
  { unfold smoothing_bounds. now rewrite Py_imax_spec, Py_imin_spec. }
  split; [apply smoothing_window_slice | ].
  split; [exact Hlen | ].
  split.
  { intros k Hk. rewrite Hlen in Hk. rewrite smoothing_window_slice.
    apply Py_slice_nth; lia. }
  split.
  { intros H5 Hn. split; [lia | ].
    intros k Hk. rewrite smoothing_window_slice.
    rewrite Py_slice_nth by lia. f_equal. lia. }
  split; [intros; lia | ].
  split; [intros; lia | ].
  split; [intros; lia | ].
  intros ->. repeat split.
Qed.

(** [smoothing_window_shape] on sequences of 176 and of 7 entries: an
    inner window of ten, and the windows at the indices 3 and 5 of the
    short sequence, which hold all 7 and the last 7 entries. *)
Lemma smoothing_window_shape_witness :
  let l := map inject_Z (Py.range 176) in
  let s := map inject_Z (Py.range 7) in
  Py.len (smoothing_window l 88) = 10%Z
  /\ Py.len (smoothing_window s 3) = 7%Z
  /\ Py.len (smoothing_window s 5) = 7%Z
  /\ smoothing_bounds (Py.len l) 0 = (0, 5)%Z
  /\ smoothing_bounds (Py.len l) 4 = (0, 9)%Z
  /\ smoothing_bounds (Py.len l) 5 = (0, 10)%Z
  /\ smoothing_bounds (Py.len l) 170 = (165, 175)%Z
  /\ smoothing_bounds (Py.len l) 175 = (170, 176)%Z.
Proof.
  intros l s.
  assert (Hl : (0 <= 88 < Py.len l)%Z) by (vm_compute; split; congruence).
  assert (H3 : (0 <= 3 < Py.len s)%Z) by (vm_compute; split; congruence).
  assert (H5 : (0 <= 5 < Py.len s)%Z) by (vm_compute; split; congruence).
  destruct (smoothing_window_shape l 88 Hl)
    as [_ [_ [_ [_ [Hten [_ [_ [_ H176]]]]]]]].
  destruct (smoothing_window_shape s 3 H3)
    as [_ [_ [_ [_ [_ [_ [_ [Hall _]]]]]]]].
  destruct (smoothing_window_shape s 5 H5)
    as [_ [_ [_ [_ [_ [_ [Hlast _]]]]]]].
  split.
  { apply Hten; vm_compute; congruence. }
  split.
  { apply Hall; vm_compute; reflexivity. }
  split.
  { rewrite Hlast by (vm_compute; congruence). reflexivity. }
  apply H176. reflexivity.
Defined.

(** C6 as stated fails: the window of an interior index has ten
    entries, not eleven. *)
Lemma smoothing_window_not_eleven :
  ~ (forall (l : list Q) (i : Z),
       (5 <= i <= Py.len l - 6)%Z ->
       Py.len (smoothing_window l i) = Z.min 11 (Py.len l)).
Proof.
  intros H.
  specialize (H (map inject_Z (Py.range 176)) 88%Z
                ltac:(vm_compute; split; congruence)).
  vm_compute in H. discriminate H.
Qed.

(* ------------------------------------------------------------------ *)
(** ** The overlay pass, row by row *)
(* ------------------------------------------------------------------ *)

Lemma loc_update_at (p t : DataFrame) (r : Row) (f : Row -> Row) :
  loc_update (p ++ r :: t) (length p) f = p ++ f r :: t.
Proof.
  induction p as [ | x p IH]; simpl; [reflexivity | now rewrite IH].
Qed.

Lemma assignments_at (fs : list (Row -> Row)) (p t : DataFrame) (r : Row) :
  fold_left (fun df f => loc_update df (length p) f) fs (p ++ r :: t)
  = p ++ fold_left (fun r f => f r) fs r :: t.
Proof.
  revert r. induction fs as [ | f fs IH]; intros r; simpl.
  - reflexivity.
  - rewrite loc_update_at. apply IH.
Qed.

Lemma add_climate_events_from (self : EarthDataAnalyzer) (t p : DataFrame) :
  fold_left (climate_event_step self)
            (combine (seq (length p) (length t)) t) (p ++ t)
  = p ++ map (overlay_row self) t.
Proof.
  revert p. induction t as [ | r t IH]; intros p.
  - reflexivity.
  - cbn [length seq combine fold_left map].
    unfold climate_event_step at 2. rewrite assignments_at.
    fold (overlay_row self r).
    change (p ++ overlay_row self r :: t)
      with (p ++ [overlay_row self r] ++ t).
    rewrite app_assoc.
    replace (S (length p)) with (length (p ++ [overlay_row self r]))
      by (rewrite length_app; simpl; lia).
    rewrite IH. rewrite <- app_assoc. reflexivity.
Qed.

(** The in-place pass is the row transform applied to every row. *)
Lemma add_climate_events_map (self : EarthDataAnalyzer) (df : DataFrame) :
  _add_climate_events self df = map (overlay_row self) df.
Proof.
  unfold _add_climate_events, iterrows.
  apply (add_climate_events_from self df []).
Qed.

Lemma add_climate_events_nth (self : EarthDataAnalyzer) (df : DataFrame)
    (i : nat) (row : Row) :
  nth_error df i = Some row ->
  nth_error (_add_climate_events self df) i = Some (overlay_row self row).
Proof.
  intros H. rewrite add_climate_events_map.
  rewrite nth_error_map, H. reflexivity.
Qed.

Lemma overlay_row_Year (self : EarthDataAnalyzer) (r : Row) :
  Year (overlay_row self r) = Year r.
Proof.
  unfold overlay_row.
  destruct (event_of_year (Year r)); cbn [event_assignments];
    repeat match goal with
    | |- context [if ?c then _ else _] => destruct c
    end; reflexivity.
Qed.



(** C3.  In the pass over any frame, every record is rewritten by the
    assignments of the branch that the chain picks for its year, and
    that branch is never the one of 2005, 2011, 2019 or 2020.  A record
    with a year from 2003 on, outside 1982-1983 and 1997-1998, gets the
    2003 branch: for temperature its [Base_Value] is multiplied by 1.1
    and its [Risk_Level] becomes [min(100, Risk_Level * 1.4)] while
    [Extreme_Events] stays, and for any other type the record stays as
    it is, so none of the later branches' factors is ever applied. *)
Theorem overlay_dispatch_stops_at_2003 (self : EarthDataAnalyzer)
    (df : DataFrame) (i : nat) (row : Row) :
  nth_error df i = Some row ->
  exists row',
    nth_error (_add_climate_events self df) i = Some row'
    /\ row' = fold_left (fun r f => f r)
                (event_assignments self (event_of_year (Year row))) row
    /\ event_of_year (Year row) <> Katrina2005
    /\ event_of_year (Year row) <> Texas2011
    /\ event_of_year (Year row) <> Australia2019
    /\ event_of_year (Year row) <> Record2020
    /\ ((2003 <= Year row)%Z ->
        ~ (1982 <= Year row <= 1983)%Z ->
        ~ (1997 <= Year row <= 1998)%Z ->
        event_of_year (Year row) = Canicule2003
        /\ (data_type self = "temperature" ->
            Base_Value row' = Base_Value row * 1.1
            /\ Risk_Level row' = Py.min 100 (Risk_Level row * 1.4)
            /\ Extreme_Events row' = Extreme_Events row)
        /\ (data_type self <> "temperature" -> row' = row)).
Proof.
  intros H. exists (overlay_row self row).
  split; [now apply add_climate_events_nth | ].
  split; [reflexivity | ].
  destruct (event_of_year_from_2003 (Year row)) as [H03 [H05 [H11 [H19 H20]]]].
  repeat (split; [assumption | ]).
  intros Hy H82 H97. specialize (H03 Hy H82 H97).
  split; [exact H03 | ].
  unfold overlay_row. rewrite H03. cbn [event_assignments]. split.
  - intros ->. rewrite String.eqb_refl. repeat split.
  - intros Hne. apply String.eqb_neq in Hne. rewrite Hne. reflexivity.
Qed.

(** The pass on three records of 2005, 2011 and 2019: unchanged for
    air quality, and for temperature the 2003 branch on the 2011
    record. *)
Lemma overlay_dispatch_stops_at_2003_witness :
  let r2005 := mkRow 2005 10 1 1 0 1 2 1 10 1 1 10 20 10 in
  let r2011 := mkRow 2011 10 1 1 0 1 2 1 10 1 1 10 20 10 in
  let r2019 := mkRow 2019 10 1 1 0 1 2 1 10 1 1 10 20 10 in
  let df := [r2005; r2011; r2019] in
  nth_error (_add_climate_events (__init__ "air_quality") df) 0 = Some r2005
  /\ nth_error (_add_climate_events (__init__ "air_quality") df) 2
     = Some r2019
  /\ exists row',
       nth_error (_add_climate_events (__init__ "temperature") df) 1
       = Some row'
       /\ Base_Value row' = 10 * 1.1
       /\ Risk_Level row' = Py.min 100 (20 * 1.4)
       /\ Extreme_Events row' = 2.
Proof.
  intros r2005 r2011 r2019 df. split; [ | split].
  - destruct (overlay_dispatch_stops_at_2003 (__init__ "air_quality") df 0
                r2005 eq_refl)
      as [row' [Hn [_ [_ [_ [_ [_ Hfrom]]]]]]].
    destruct (Hfrom ltac:(simpl; lia) ltac:(simpl; lia) ltac:(simpl; lia))
      as [_ [_ Hsame]].
    rewrite Hn. f_equal. apply Hsame. discriminate.
  - destruct (overlay_dispatch_stops_at_2003 (__init__ "air_quality") df 2
                r2019 eq_refl)
      as [row' [Hn [_ [_ [_ [_ [_ Hfrom]]]]]]].
    destruct (Hfrom ltac:(simpl; lia) ltac:(simpl; lia) ltac:(simpl; lia))
      as [_ [_ Hsame]].
    rewrite Hn. f_equal. apply Hsame. discriminate.
  - destruct (overlay_dispatch_stops_at_2003 (__init__ "temperature") df 1
                r2011 eq_refl)
      as [row' [Hn [_ [_ [_ [_ [_ Hfrom]]]]]]].
    destruct (Hfrom ltac:(simpl; lia) ltac:(simpl; lia) ltac:(simpl; lia))
      as [_ [Htemp _]].
    exists row'. split; [exact Hn | ]. apply Htemp. reflexivity.
Defined.

(** C4.  After the pass over any frame, a row for 1815 has its
    [Base_Value] multiplied by 0.9 and its [Risk_Level] by 1.2, and a
    row for 1997 has its [Extreme_Events] multiplied by 1.8. *)
Theorem overlay_1815_and_1997 (self : EarthDataAnalyzer) (df : DataFrame)
    (i : nat) (row : Row) :
  nth_error df i = Some row ->
  exists row',
    nth_error (_add_climate_events self df) i = Some row'
    /\ (Year row = 1815%Z ->
        Base_Value row' == 0.9 * Base_Value row
        /\ Risk_Level row' == 1.2 * Risk_Level row)
    /\ (Year row = 1997%Z ->
        Extreme_Events row' == 1.8 * Extreme_Events row).
Proof.
  intros H. exists (overlay_row self row).
  split; [now apply add_climate_events_nth | ].
  unfold overlay_row. split; intros ->; simpl; split || idtac; ring.
Qed.

(** [overlay_1815_and_1997] on a two-row frame for 1815 and 1997. *)
Lemma overlay_1815_and_1997_witness :
  let r1815 := mkRow 1815 10 1 1 0 1 1 1 10 1 1 10 20 10 in
  let r1997 := mkRow 1997 10 1 1 0 1 2 1 10 1 1 10 20 10 in
  let df := _add_climate_events (__init__ "co2") [r1815; r1997] in
  (exists row', nth_error df 0 = Some row'
                /\ Base_Value row' == 9 /\ Risk_Level row' == 24)
  /\ (exists row', nth_error df 1 = Some row'
                   /\ Extreme_Events row' == 3.6).
Proof.
  intros r1815 r1997 df. split.
  - destruct (overlay_1815_and_1997 (__init__ "co2") [r1815; r1997] 0 r1815
                eq_refl) as [row' [Hn [H1 _]]].
    exists row'. split; [exact Hn | ].
    destruct (H1 eq_refl) as [Hb Hr]. rewrite Hb, Hr. split; reflexivity.
  - destruct (overlay_1815_and_1997 (__init__ "co2") [r1815; r1997] 1 r1997
                eq_refl) as [row' [Hn [_ H2]]].
    exists row'. split; [exact Hn | ].
    rewrite (H2 eq_refl). reflexivity.
Defined.

(* ------------------------------------------------------------------ *)
(** ** Facts about the generators *)
(* ------------------------------------------------------------------ *)

Lemma Forall2_nth_error {A B : Type} (P : A -> B -> Prop)
    (xs : list A) (ys : list B) (i : nat) (x : A) :
  Forall2 P xs ys -> nth_error xs i = Some x ->
  exists y, nth_error ys i = Some y /\ P x y.
Proof.
  intros H. revert i. induction H as [ | a b xs ys Hab _ IH]; intros i Hi.
  - destruct i; discriminate Hi.
  - destruct i as [ | i]; simpl in *.
    + injection Hi as <-. exists b. split; [reflexivity | exact Hab].
    + apply IH. exact Hi.
Qed.

Lemma nth_error_nth_default {A : Type} (l : list A) (i : nat) (x d : A) :
  nth_error l i = Some x -> nth i l d = x.
Proof. intros H. apply nth_error_nth. exact H. Qed.

Lemma nth_map_range {A : Type} (f : Z -> A) (n : Z) (i : nat) (d : A) :
  (Z.of_nat i < n)%Z -> nth i (map f (Py.range n)) d = f (Z.of_nat i).
Proof.
  intros Hi. unfold Py.range. rewrite map_map.
  rewrite (nth_indep _ d (f (Z.of_nat 0))) by (rewrite length_map, length_seq; lia).
  rewrite (map_nth (fun k => f (Z.of_nat k)) (seq 0 (Z.to_nat n)) 0%nat i).
  rewrite seq_nth by lia. reflexivity.
Qed.

Lemma pd_DataFrame_nth (data : Data) (i : nat) :
  (i < length (data_Year data))%nat ->
  nth_error (pd_DataFrame data) i = Some (data_row data i).
Proof.
  intros Hi. unfold pd_DataFrame.
  rewrite nth_error_map, nth_error_seq.
  apply Nat.ltb_lt in Hi. rewrite Hi. reflexivity.
Qed.

Lemma pd_DataFrame_length (data : Data) :
  length (pd_DataFrame data) = length (data_Year data).
Proof. unfold pd_DataFrame. now rewrite length_map, length_seq. Qed.

Lemma pd_DataFrame_Year (data : Data) :
  map Year (pd_DataFrame data) = data_Year data.
Proof.
  unfold pd_DataFrame. rewrite map_map. cbn [data_row Year].
  generalize (data_Year data). intros l.
  apply nth_error_ext. intros i. rewrite nth_error_map, nth_error_seq.
  destruct (Nat.ltb_spec i (length l)) as [Hi | Hi]; cbn [option_map].
  - rewrite Nat.add_0_l. destruct (nth_error l i) eqn:E.
    + now rewrite (nth_error_nth_default _ _ _ _ E).
    + apply nth_error_None in E. lia.
  - symmetry. now apply nth_error_None.
Qed.

(** The dates of every analyzer that [__init__] builds. *)
Lemma earth_dates_init (dt : string) :
  earth_dates (__init__ dt) = pd_date_range 1850 2025.
Proof. reflexivity. Qed.

Lemma pd_date_range_length : length (pd_date_range 1850 2025) = 176%nat.
Proof. reflexivity. Qed.

Lemma pd_date_range_nth (i : nat) :
  (i < 176)%nat ->
  nth_error (pd_date_range 1850 2025) i
  = Some (Timestamp.make (1850 + Z.of_nat i) 12 31).
Proof.
  intros Hi. unfold pd_date_range.
  rewrite nth_error_map, nth_error_seq.
  change (Z.to_nat (2025 - 1850 + 1)) with 176%nat.
  apply Nat.ltb_lt in Hi. rewrite Hi. reflexivity.
Qed.

Section GeneratorFacts.

Context {np : NumPy}.

Lemma for_each_length {A B : Type} (body : A -> Rand B) (xs : list A)
    (g : RandomState) :
  length (fst (for_each body xs g)) = length xs.
Proof.
  revert g. induction xs as [ | x xs IH]; intros g; [reflexivity | ].
  cbn [for_each]. unfold bind, ret. cbn [fst snd length].
  now rewrite IH.
Qed.

(** What holds of every result of the body holds of the collected
    list, entry by entry. *)
Lemma for_each_Forall2 {A B : Type} (P : A -> B -> Prop)
    (body : A -> Rand B) (xs : list A) (g : RandomState) :
  (forall x g', P x (fst (body x g'))) ->
  Forall2 P xs (fst (for_each body xs g)).
Proof.
  intros HP. revert g.
  induction xs as [ | x xs IH]; intros g; [constructor | ].
  cbn [for_each]. unfold bind, ret. cbn [fst snd].
  constructor; [apply HP | apply IH].
Qed.

Lemma simulate_earth_cycle_length self dates g :
  length (fst (_simulate_earth_cycle self dates g)) = length dates.
Proof. apply for_each_length. Qed.

Lemma simulate_extreme_events_length self dates g :
  length (fst (_simulate_extreme_events self dates g)) = length dates.
Proof. apply for_each_length. Qed.

(** An extreme-event intensity is the intensity of its year or 1. *)
Lemma simulate_extreme_events_values self dates g :
  Forall2 (fun date e =>
             e = 1.0 + 0.5 * inject_Z (Timestamp.year date - 1850) / 100
             \/ e = 1.0)
          dates (fst (_simulate_extreme_events self dates g)).
Proof.
  apply for_each_Forall2. intros date g'.
  unfold bind, ret. cbn [fst snd].
  destruct (Py.lt _ _); [left | right]; reflexivity.
Qed.

(** The columns of [data], each from its own call. *)
Lemma earth_data_Year self g :
  data_Year (fst (earth_data self g))
  = map Timestamp.year (earth_dates self).
Proof. reflexivity. Qed.

Lemma earth_data_Base_Value self g :
  data_Base_Value (fst (earth_data self g))
  = fst (_simulate_earth_cycle self (earth_dates self) g).
Proof. reflexivity. Qed.

Lemma earth_data_Smoothed_Value self g :
  data_Smoothed_Value (fst (earth_data self g))
  = fst (_simulate_smoothed_data self (earth_dates self)
           (rng_at_smoothed_data self g)).
Proof. reflexivity. Qed.

Lemma earth_data_Risk_Level self g :
  data_Risk_Level (fst (earth_data self g))
  = fst (_simulate_risk_level self (earth_dates self)
           (rng_at_risk_level self g)).
Proof. reflexivity. Qed.

Lemma earth_data_Future_Projection self g :
  data_Future_Projection (fst (earth_data self g))
  = fst (_simulate_future_projection self (earth_dates self)
           (rng_at_future_projection self g)).
Proof. reflexivity. Qed.

Lemma earth_data_frame_fst self g :
  fst (earth_data_frame self g) = pd_DataFrame (fst (earth_data self g)).
Proof. reflexivity. Qed.

Lemma generate_earth_data_fst self g :
  fst (generate_earth_data self g)
  = _add_climate_events self (fst (earth_data_frame self g)).
Proof. reflexivity. Qed.

End GeneratorFacts.

(* ------------------------------------------------------------------ *)
(** ** The generated sequence *)
(* ------------------------------------------------------------------ *)

Lemma years_sorted (a : Z) (n s : nat) :
  StronglySorted Z.lt (map (fun k => (a + Z.of_nat k)%Z) (seq s n)).
Proof.
  revert s. induction n as [ | n IH]; intros s; cbn [seq map].
  - constructor.
  - constructor; [apply IH | ].
    apply Forall_forall. intros y Hy.
    apply in_map_iff in Hy. destruct Hy as [k [<- Hk]].
    apply in_seq in Hk. lia.
Qed.

Lemma years_NoDup (a : Z) (n s : nat) :
  NoDup (map (fun k => (a + Z.of_nat k)%Z) (seq s n)).
Proof.
  apply Injective_map_NoDup; [ | apply seq_NoDup].
  intros x y H. lia.
Qed.

Section Runs.

Context {np : NumPy}.

Variable dt : string.

Let self : EarthDataAnalyzer := __init__ dt.

Lemma run_data_Year g :
  data_Year (fst (earth_data self g))
  = map (fun k => (1850 + Z.of_nat k)%Z) (seq 0 176).
Proof.
  rewrite earth_data_Year. unfold self. rewrite earth_dates_init.
  unfold pd_date_range. rewrite map_map. reflexivity.
Qed.

Lemma run_frame_length g :
  length (fst (earth_data_frame self g)) = 176%nat.
Proof.
  rewrite earth_data_frame_fst, pd_DataFrame_length, run_data_Year.
  reflexivity.
Qed.

(** Row [i] of the frame before the overlay. *)
Lemma run_frame_nth g (i : nat) (row : Row) :
  nth_error (fst (earth_data_frame self g)) i = Some row ->
  (i < 176)%nat /\ row = data_row (fst (earth_data self g)) i.
Proof.
  intros H.
  assert (Hi : (i < 176)%nat).
  { rewrite <- (run_frame_length g). apply nth_error_Some. congruence. }
  split; [exact Hi | ].
  rewrite earth_data_frame_fst, pd_DataFrame_nth in H
    by (rewrite run_data_Year; exact Hi).
  congruence.
Qed.

Lemma run_frame_row g (i : nat) :
  (i < 176)%nat ->
  nth_error (fst (earth_data_frame self g)) i
  = Some (data_row (fst (earth_data self g)) i).
Proof.
  intros Hi. rewrite earth_data_frame_fst.
  apply pd_DataFrame_nth. rewrite run_data_Year. exact Hi.
Qed.

Lemma run_row_Year g (i : nat) :
  (i < 176)%nat ->
  Year (data_row (fst (earth_data self g)) i) = (1850 + Z.of_nat i)%Z.
Proof.
  intros Hi. cbn [data_row Year]. rewrite run_data_Year.
  rewrite (nth_indep _ 0%Z (1850 + Z.of_nat 0)%Z)
    by (rewrite length_map, length_seq; exact Hi).
  rewrite (map_nth (fun k => (1850 + Z.of_nat k)%Z) (seq 0 176) 0%nat i).
  rewrite seq_nth by lia. reflexivity.
Qed.

(** Row [i] of the finished frame is the overlay of row [i] of the
    frame before it. *)
Lemma run_final_nth g (i : nat) (row' : Row) :
  nth_error (fst (generate_earth_data self g)) i = Some row' ->
  (i < 176)%nat
  /\ row' = overlay_row self (data_row (fst (earth_data self g)) i).
Proof.
  rewrite generate_earth_data_fst, add_climate_events_map, nth_error_map.
  destruct (nth_error (fst (earth_data_frame self g)) i) as [row | ] eqn:E;
    [ | discriminate].
  apply run_frame_nth in E. destruct E as [Hi ->].
  cbn [option_map]. intros H. split; [exact Hi | congruence].
Qed.

(** C9.  The [Year] column of the generated sequence is 1850, 1851,
    ..., 2025: 176 years, strictly increasing, none twice, none
    missing. *)
Theorem year_column_1850_2025 (g : RandomState) :
  let df := fst (generate_earth_data self g) in
  map Year df = map (fun k => (1850 + Z.of_nat k)%Z) (seq 0 176)
  /\ length df = 176%nat
  /\ StronglySorted Z.lt (map Year df)
  /\ NoDup (map Year df)
  /\ (forall y : Z, In y (map Year df) <-> (1850 <= y <= 2025)%Z).
Proof.
  intros df.
  assert (HY : map Year df
               = map (fun k => (1850 + Z.of_nat k)%Z) (seq 0 176)).
  { unfold df. rewrite generate_earth_data_fst, add_climate_events_map.
    rewrite map_map.
    rewrite (map_ext _ Year (overlay_row_Year self)).
    rewrite earth_data_frame_fst, pd_DataFrame_Year.
    apply run_data_Year. }
  split; [exact HY | ].
  split.
  { rewrite <- (length_map Year), HY, length_map, length_seq.
    reflexivity. }
  rewrite HY.
  split; [apply years_sorted | ].
  split; [apply years_NoDup | ].
  intros y. rewrite in_map_iff. split.
  - intros [k [<- Hk]]. apply in_seq in Hk. lia.
  - intros Hy. exists (Z.to_nat (y - 1850)). split; [lia | ].
    apply in_seq. lia.
Qed.

End Runs.

(* ------------------------------------------------------------------ *)
(** ** The derived columns of a run *)
(* ------------------------------------------------------------------ *)

Lemma nth_error_combine {A B : Type} (l1 : list A) (l2 : list B) (i : nat)
    (a : A) (b : B) :
  nth_error l1 i = Some a -> nth_error l2 i = Some b ->
  nth_error (combine l1 l2) i = Some (a, b).
Proof.
  revert l2 i. induction l1 as [ | x l1 IH]; intros l2 i H1 H2.
  - destruct i; discriminate H1.
  - destruct l2 as [ | y l2]; [destruct i; discriminate H2 | ].
    destruct i as [ | i]; simpl in *.
    + congruence.
    + now apply IH.
Qed.

Lemma nth_error_range (n : Z) (i : nat) :
  (Z.of_nat i < n)%Z -> nth_error (Py.range n) i = Some (Z.of_nat i).
Proof.
  intros Hi. unfold Py.range. rewrite nth_error_map, nth_error_seq.
  replace (i <? Z.to_nat n)%nat with true
    by (symmetry; apply Nat.ltb_lt; lia).
  reflexivity.
Qed.

Section DerivedColumns.

Context {np : NumPy}.

Variable dt : string.

Let self : EarthDataAnalyzer := __init__ dt.

Let dates : list Timestamp.t := earth_dates self.

Lemma run_dates_nth (i : nat) :
  (i < 176)%nat ->
  nth_error dates i = Some (Timestamp.make (1850 + Z.of_nat i) 12 31).
Proof. apply pd_date_range_nth. Qed.

Lemma run_dates_len : Py.len dates = 176%Z.
Proof. reflexivity. Qed.







(** The risk level of row [i] before the overlay. *)
Lemma run_row_Risk_Level (g : RandomState) (i : nat) :
  (i < 176)%nat ->
  exists e : Q,
    (e = 1.0 + 0.5 * inject_Z (1850 + Z.of_nat i - 1850) / 100 \/ e = 1.0)
    /\ Risk_Level (data_row (fst (earth_data self g)) i)
       = Py.min 100 (human_impact (1850 + Z.of_nat i) * 20 + (e - 1) * 50).
Proof.
  intros Hi. cbn [data_row Risk_Level].
  rewrite earth_data_Risk_Level.
  unfold _simulate_risk_level, bind, ret. cbn [fst snd]. fold dates.
  rewrite nth_map_range by (rewrite run_dates_len; lia).
  pose proof (simulate_extreme_events_values self dates
                (rng_at_risk_level self g)) as HF.
  destruct (Forall2_nth_error _ _ _ _ _ HF (run_dates_nth i Hi))
    as [e [He Hval]].
  cbn [Timestamp.year] in Hval.
  exists e. split; [exact Hval | ].
  unfold Py.item. rewrite Nat2Z.id.
  rewrite (nth_error_nth_default _ _ _ 0 He).
  unfold _simulate_human_impact.
  rewrite (nth_error_nth_default _ i
             (human_impact (1850 + Z.of_nat i)) 0).
  - reflexivity.
  - rewrite nth_error_map, (run_dates_nth i Hi). reflexivity.
Qed.

End DerivedColumns.

(* ------------------------------------------------------------------ *)
(** ** The risk level after the overlay *)
(* ------------------------------------------------------------------ *)

(** The risk score before the overlay, for a year of the run: it is in
    [[0, 100]], and in the 1930s it is low enough to stay there when
    multiplied by 1.3. *)
Lemma risk_score_bounds (y : Z) (e : Q) :
  (1850 <= y <= 2025)%Z ->
  e = 1.0 + 0.5 * inject_Z (y - 1850) / 100 \/ e = 1.0 ->
  let risk := Py.min 100 (human_impact y * 20 + (e - 1) * 50) in
  0 <= risk /\ risk <= 100
  /\ ((1930 <= y <= 1939)%Z -> risk * 1.3 <= 100).
Proof.
  intros Hy He risk.
  assert (He1 : 1 <= e).
  { destruct He as [-> | ->]; split_bounds; z_to_q; div_consts; lra. }
  pose proof (human_impact_ge_1 y) as Hh.
  split; [ | split].
  - apply Py_min_glb; lra.
  - apply Py_min_le_l.
  - intros Hd.
    pose proof (Py_min_le_r 100 (human_impact y * 20 + (e - 1) * 50)) as Hr.
    fold risk in Hr.
    assert (Hx : human_impact y * 20 + (e - 1) * 50 <= 61).
    { clear Hr Hh He1. unfold human_impact, human_impact_formula.
      decide_tests.
      destruct He as [-> | ->]; split_bounds; z_to_q; div_consts; lra. }
    lra.
Qed.

Section RiskLevel.

Context {np : NumPy}.

Variable dt : string.

Let self : EarthDataAnalyzer := __init__ dt.

(** C5.  Every record of the finished sequence, for every variable
    type, has its [Risk_Level] in [[0, 100]]. *)
Theorem risk_level_in_0_100 (g : RandomState) (row : Row) :
  In row (fst (generate_earth_data self g)) ->
  0 <= Risk_Level row <= 100.
Proof.
  intros Hin. apply In_nth_error in Hin. destruct Hin as [i Hi].
  apply run_final_nth in Hi. destruct Hi as [Hi ->].
  destruct (run_row_Risk_Level dt g i Hi) as [e [He HR]].
  pose proof (run_row_Year dt g i Hi) as HY.
  revert HR HY.
  generalize (data_row (fst (earth_data (__init__ dt) g)) i).
  intros r HR HY.
  assert (Hy : (1850 <= 1850 + Z.of_nat i <= 2025)%Z) by lia.
  revert He HR HY Hy. generalize (1850 + Z.of_nat i)%Z. clear Hi i.
  intros y He HR HY Hy.
  destruct (risk_score_bounds y e Hy He) as [H0 [H100 Hd]].
  rewrite <- HR in H0, H100, Hd. clear HR He e.
  unfold overlay_row, event_of_year. rewrite HY.
  change (Py.truthy 2003) with true.
  destruct (event_ranges y) as [H | [H | [H | [H | H]]]];
    decide_tests; cbv iota; cbn [event_assignments].
  - lia.
  - specialize (Hd H).
    destruct (Py.str_in _ _);
      cbn [fold_left mul_Base_Value mul_Risk_Level set_Base_Value
           set_Risk_Level Risk_Level]; lra.
  - cbn [fold_left mul_Base_Value mul_Extreme_Events set_Base_Value
         set_Extreme_Events Risk_Level]. lra.
  - cbn [fold_left mul_Base_Value mul_Extreme_Events set_Base_Value
         set_Extreme_Events Risk_Level]. lra.
  - destruct (String.eqb _ _);
      cbn [fold_left mul_Base_Value cap_Risk_Level set_Base_Value
           set_Risk_Level Risk_Level]; [ | lra].
    split; [apply Py_min_glb; lra | apply Py_min_le_l].
Qed.

End RiskLevel.

(* ------------------------------------------------------------------ *)
(** ** The overlay on a temperature run *)
(* ------------------------------------------------------------------ *)

(** C10.  In a temperature run, every year of the sequence outside
    1930-1939, 1982-1983 and 1997-1998, which includes every other
    year from 1850 to 2002, has its record rewritten by the 2003
    branch: [Base_Value] is multiplied by 1.1 and [Risk_Level] becomes
    [min(100, Risk_Level * 1.4)]. *)
Theorem temperature_overlay_every_year {np : NumPy} (g : RandomState)
    (y : Z) :
  let self := __init__ "temperature" in
  let i := Z.to_nat (y - 1850) in
  (1850 <= y <= 2025)%Z ->
  ~ (1930 <= y <= 1939)%Z ->
  ~ (1982 <= y <= 1983)%Z ->
  ~ (1997 <= y <= 1998)%Z ->
  exists row row' : Row,
    nth_error (fst (earth_data_frame self g)) i = Some row
    /\ nth_error (fst (generate_earth_data self g)) i = Some row'
    /\ Year row = y /\ Year row' = y
    /\ event_of_year y = Canicule2003
    /\ Base_Value row' = Base_Value row * 1.1
    /\ Risk_Level row' = Py.min 100 (Risk_Level row * 1.4).
Proof.
  intros self i Hy H1 H2 H3.
  assert (Hi : (i < 176)%nat) by (unfold i; lia).
  pose proof (run_frame_row "temperature" g i Hi) as Hrow.
  pose proof (run_row_Year "temperature" g i Hi) as HY.
  replace (1850 + Z.of_nat i)%Z with y in HY by (unfold i; lia).
  revert Hrow HY.
  generalize (data_row (fst (earth_data (__init__ "temperature") g)) i).
  intros row Hrow HY.
  assert (Hev : event_of_year y = Canicule2003).
  { unfold event_of_year. decide_tests. reflexivity. }
  exists row, (overlay_row self row).
  split; [exact Hrow | ].
  split.
  { rewrite generate_earth_data_fst. now apply add_climate_events_nth. }
  split; [exact HY | ].
  split; [now rewrite overlay_row_Year | ].
  split; [exact Hev | ].
  unfold overlay_row. rewrite HY, Hev. split; reflexivity.
Qed.

(* ------------------------------------------------------------------ *)
(** ** Concrete runs *)
(* ------------------------------------------------------------------ *)

(** Picks row [k] of a concrete frame [df] and leaves the property of
    that row to prove. *)
Ltac at_row df k :=
  let E := fresh "E" in
  destruct (nth_error df k) as [?row | ] eqn:E;
  [ | vm_compute in E; discriminate E ].





(** [risk_level_in_0_100] on record 85 (the year 1935) of a
    precipitation run, which the 1930-1939 branch rewrites. *)
Lemma risk_level_in_0_100_witness :
  let df := fst (generate_earth_data (np := counting_numpy)
                   (__init__ "precipitation") 0%Z) in
  exists row,
    nth_error df 85 = Some row /\ 0 <= Risk_Level row <= 100.
Proof.
  intros df. at_row df 85%nat.
  exists row. split; [reflexivity | ].
  apply (risk_level_in_0_100 (np := counting_numpy) "precipitation" 0%Z).
  apply (nth_error_In _ _ E).
Defined.

(** [temperature_overlay_every_year] at the year 1850. *)
Lemma temperature_overlay_every_year_witness :
  let self := __init__ "temperature" in
  exists row row' : Row,
    nth_error (fst (earth_data_frame (np := counting_numpy) self 0%Z)) 0
    = Some row
    /\ nth_error (fst (generate_earth_data (np := counting_numpy) self 0%Z)) 0
       = Some row'
    /\ Year row = 1850%Z /\ Year row' = 1850%Z
    /\ event_of_year 1850 = Canicule2003
    /\ Base_Value row' = Base_Value row * 1.1
    /\ Risk_Level row' = Py.min 100 (Risk_Level row * 1.4).
Proof.
  intros self.
  apply (temperature_overlay_every_year (np := counting_numpy) 0%Z 1850);
    lia.
Defined.

(* ------------------------------------------------------------------ *)
(** ** Which overlay branches a run can take *)
(* ------------------------------------------------------------------ *)

(** Every record of a run has its year in 1850..2025, so no record of a
    run takes the 1815-1816 branch. *)
Lemma run_years_from_1850 {np : NumPy} (dt : string) (g : RandomState)
    (row : Row) :
  In row (fst (generate_earth_data (__init__ dt) g)) ->
  (1850 <= Year row <= 2025)%Z /\ event_of_year (Year row) <> Tambora.
Proof.
  intros Hin. apply In_nth_error in Hin. destruct Hin as [i Hi].
  apply run_final_nth in Hi. destruct Hi as [Hi ->].
  rewrite overlay_row_Year, run_row_Year by exact Hi.
  split; [lia | ].
  unfold event_of_year. decide_tests. cbv iota.
  repeat match goal with
  | |- context [if ?c then _ else _] => destruct c
  end; discriminate.
Qed.

(** The record for 1997 of a run has its extreme-event intensity
    multiplied by 1.8 and its base value by 1.08. *)
Lemma run_1997_record {np : NumPy} (dt : string) (g : RandomState) :
  let self := __init__ dt in
  exists row row' : Row,
    nth_error (fst (earth_data_frame self g)) 147 = Some row
    /\ nth_error (fst (generate_earth_data self g)) 147 = Some row'
    /\ Year row = 1997%Z
    /\ Extreme_Events row' = Extreme_Events row * 1.8
    /\ Base_Value row' = Base_Value row * 1.08.
Proof.
  intros self.
  assert (Hi : (147 < 176)%nat) by lia.
  pose proof (run_frame_row dt g 147 Hi) as Hrow.
  pose proof (run_row_Year dt g 147 Hi) as HY.
  change (1850 + Z.of_nat 147)%Z with 1997%Z in HY.
  revert Hrow HY.
  generalize (data_row (fst (earth_data (__init__ dt) g)) 147).
  intros row Hrow HY.
  exists row, (overlay_row self row).
  split; [exact Hrow | ].
  split.
  { rewrite generate_earth_data_fst. now apply add_climate_events_nth. }
  split; [exact HY | ].
  unfold overlay_row. rewrite HY. split; reflexivity.
Qed.


(* ================================================================== *)
(** * Further properties of the code *)
(* ================================================================== *)

(* ------------------------------------------------------------------ *)
(** ** What the overlay pass leaves alone *)
(* ------------------------------------------------------------------ *)

(** Decides the tests on the variable type in the branch bodies. *)
Ltac split_type_tests :=
  repeat match goal with
  | |- context [if ?c then _ else _] => destruct c
  end.

Lemma overlay_row_other_columns (self : EarthDataAnalyzer) (r : Row) :
  let r' := overlay_row self r in
  Year r' = Year r
  /\ Seasonal_Min r' = Seasonal_Min r
  /\ Seasonal_Max r' = Seasonal_Max r
  /\ Annual_Cycle r' = Annual_Cycle r
  /\ Climate_Trend r' = Climate_Trend r
  /\ Human_Impact r' = Human_Impact r
  /\ Smoothed_Value r' = Smoothed_Value r
  /\ Monthly_Variation r' = Monthly_Variation r
  /\ Decadal_Variation r' = Decadal_Variation r
  /\ Environmental_Index r' = Environmental_Index r
  /\ Future_Projection r' = Future_Projection r.
Proof.
  unfold overlay_row.
  destruct (event_of_year (Year r)); cbn [event_assignments];
    split_type_tests; repeat split.
Qed.

(** X1.  The overlay pass keeps the number of rows and their order, and in
    every row it keeps the year and the ten derived columns other than
    [Extreme_Events] and [Risk_Level]: it only ever writes to
    [Base_Value], [Extreme_Events] and [Risk_Level]. *)
Theorem overlay_writes_three_columns (self : EarthDataAnalyzer)
    (df : DataFrame) (i : nat) (row : Row) :
  nth_error df i = Some row ->
  length (_add_climate_events self df) = length df
  /\ exists row',
       nth_error (_add_climate_events self df) i = Some row'
       /\ Year row' = Year row
       /\ Seasonal_Min row' = Seasonal_Min row
       /\ Seasonal_Max row' = Seasonal_Max row
       /\ Annual_Cycle row' = Annual_Cycle row
       /\ Climate_Trend row' = Climate_Trend row
       /\ Human_Impact row' = Human_Impact row
       /\ Smoothed_Value row' = Smoothed_Value row
       /\ Monthly_Variation row' = Monthly_Variation row
       /\ Decadal_Variation row' = Decadal_Variation row
       /\ Environmental_Index row' = Environmental_Index row
       /\ Future_Projection row' = Future_Projection row.
Proof.
  intros H. split.
  - rewrite add_climate_events_map. apply length_map.
  - exists (overlay_row self row).
    split; [now apply add_climate_events_nth | ].
    apply overlay_row_other_columns.
Qed.

Lemma overlay_writes_three_columns_witness :
  let r := mkRow 1997 10 1 2 3 4 5 6 7 8 9 10 20 11 in
  exists row',
    nth_error (_add_climate_events (__init__ "co2") [r]) 0 = Some row'
    /\ Year row' = 1997%Z /\ Smoothed_Value row' = 7
    /\ Future_Projection row' = 11.
Proof.
  intros r.
  destruct (overlay_writes_three_columns (__init__ "co2") [r] 0 r eq_refl)
    as [_ [row' [Hn [HY [_ [_ [_ [_ [_ [HS [_ [_ [_ HF]]]]]]]]]]]]].
  exists row'. repeat split; assumption.
Defined.

(** X2.  For a variable type other than temperature, the pass changes
    nothing in a row whose year is outside 1815-1816, 1982-1983 and
    1997-1998, and outside 1930-1939 unless the type is precipitation:
    the branches after 1997-1998 have no effect for such a type. *)
Theorem overlay_leaves_row_unchanged (self : EarthDataAnalyzer)
    (df : DataFrame) (i : nat) (row : Row) :
  nth_error df i = Some row ->
  data_type self <> "temperature" ->
  ~ (1815 <= Year row <= 1816)%Z ->
  ~ (1982 <= Year row <= 1983)%Z ->
  ~ (1997 <= Year row <= 1998)%Z ->
  (data_type self <> "precipitation" \/ ~ (1930 <= Year row <= 1939)%Z) ->
  nth_error (_add_climate_events self df) i = Some row.
Proof.
  intros H Ht H1 H2 H3 Hp.
  rewrite (add_climate_events_nth self df i row H). f_equal.
  unfold overlay_row, event_of_year.
  change (Py.truthy 2003) with true.
  assert (Et : String.eqb (data_type self) "temperature" = false)
    by (apply String.eqb_neq; exact Ht).
  destruct (event_ranges (Year row)) as [E | [E | [E | [E | E]]]];
    try contradiction; decide_tests; cbv iota; cbn [event_assignments].
  - destruct Hp as [Hp | Hp]; [ | contradiction].
    apply String.eqb_neq in Hp.
    unfold Py.str_in. cbn [existsb]. rewrite Et, Hp. reflexivity.
  - rewrite Et. reflexivity.
Qed.

Lemma overlay_leaves_row_unchanged_witness :
  let r2011 := mkRow 2011 10 1 1 0 1 2 1 10 1 1 10 20 10 in
  let r1935 := mkRow 1935 10 1 1 0 1 2 1 10 1 1 10 20 10 in
  nth_error (_add_climate_events (__init__ "co2") [r2011; r1935]) 0
  = Some r2011
  /\ nth_error (_add_climate_events (__init__ "co2") [r2011; r1935]) 1
     = Some r1935.
Proof.
  intros r2011 r1935. split.
  - apply overlay_leaves_row_unchanged;
      [reflexivity | discriminate | simpl; lia .. | left; discriminate].
  - apply overlay_leaves_row_unchanged;
      [reflexivity | discriminate | simpl; lia .. | left; discriminate].
Defined.

(* ------------------------------------------------------------------ *)
(** ** The shape of the table *)
(* ------------------------------------------------------------------ *)

Lemma Py_range_length (n : nat) : length (Py.range (Z.of_nat n)) = n.
Proof. unfold Py.range. now rewrite length_map, length_seq, Nat2Z.id. Qed.

Section Shape.

Context {np : NumPy}.

Lemma enumerate_length {A : Type} (xs : list A) :
  length (enumerate xs) = length xs.
Proof.
  unfold enumerate. rewrite length_combine.
  unfold Py.len. rewrite Py_range_length. apply Nat.min_id.
Qed.

(** X4.  In every run, whatever the variable type and the draws, each
    of the fourteen columns that [generate_earth_data] puts into [data]
    has exactly 176 entries, one per date, so the table is rectangular;
    the frame before the overlay and the finished frame have 176 rows. *)
Theorem earth_data_is_rectangular (dt : string) (g : RandomState) :
  let data := fst (earth_data (__init__ dt) g) in
  length (data_Year data) = 176%nat
  /\ length (data_Base_Value data) = 176%nat
  /\ length (data_Seasonal_Min data) = 176%nat
  /\ length (data_Seasonal_Max data) = 176%nat
  /\ length (data_Annual_Cycle data) = 176%nat
  /\ length (data_Climate_Trend data) = 176%nat
  /\ length (data_Extreme_Events data) = 176%nat
  /\ length (data_Human_Impact data) = 176%nat
  /\ length (data_Smoothed_Value data) = 176%nat
  /\ length (data_Monthly_Variation data) = 176%nat
  /\ length (data_Decadal_Variation data) = 176%nat
  /\ length (data_Environmental_Index data) = 176%nat
  /\ length (data_Risk_Level data) = 176%nat
  /\ length (data_Future_Projection data) = 176%nat
  /\ length (fst (earth_data_frame (__init__ dt) g)) = 176%nat
  /\ length (fst (generate_earth_data (__init__ dt) g)) = 176%nat.
Proof.
  intros data.
  assert (Hd : length (earth_dates (__init__ dt)) = 176%nat) by reflexivity.
  assert (Hf : length (fst (earth_data_frame (__init__ dt) g)) = 176%nat)
    by apply run_frame_length.
  assert (Hg : length (fst (generate_earth_data (__init__ dt) g)) = 176%nat).
  { rewrite generate_earth_data_fst, add_climate_events_map, length_map.
    exact Hf. }
  unfold data, earth_data, bind, ret. cbv zeta.
  cbn [fst snd data_Year data_Base_Value data_Seasonal_Min
       data_Seasonal_Max data_Annual_Cycle data_Climate_Trend
       data_Extreme_Events data_Human_Impact data_Smoothed_Value
       data_Monthly_Variation data_Decadal_Variation
       data_Environmental_Index data_Risk_Level data_Future_Projection].
  unfold _simulate_seasonal_minima, _simulate_seasonal_maxima,
    _simulate_annual_cycle, _simulate_climate_trend,
    _simulate_human_impact, _simulate_monthly_variation,
    _simulate_decadal_variation, _simulate_smoothed_data,
    _simulate_environmental_index, _simulate_risk_level,
    _simulate_future_projection, bind, ret.
  cbv zeta. cbn [fst snd].
  unfold Py.len at 1 2 3.
  rewrite ?length_map, ?Py_range_length, ?simulate_earth_cycle_length,
    ?simulate_extreme_events_length, ?for_each_length, ?enumerate_length.
  do 14 (split; [exact Hd | ]).
  split; assumption.
Qed.

End Shape.

(* ------------------------------------------------------------------ *)
(** ** The columns of a run that do not depend on the draws *)
(* ------------------------------------------------------------------ *)

Lemma map_nth_seq {A : Type} (l : list A) (d : A) :
  map (fun i => nth i l d) (seq 0 (length l)) = l.
Proof.
  apply nth_error_ext. intros i. rewrite nth_error_map, nth_error_seq.
  destruct (Nat.ltb_spec i (length l)) as [Hi | Hi]; cbn [option_map].
  - rewrite Nat.add_0_l. destruct (nth_error l i) eqn:E.
    + now rewrite (nth_error_nth_default _ _ _ _ E).
    + apply nth_error_None in E. lia.
  - symmetry. now apply nth_error_None.
Qed.

Lemma Py_mod1_int (k : Z) : Py.mod1 (inject_Z k) == 0.
Proof. unfold Py.mod1. rewrite Qfloor_Z. ring. Qed.

Lemma human_impact_from_1850 (y : Z) :
  (1850 <= y <= 2025)%Z -> 1.25 <= human_impact y <= 4.2.
Proof.
  intros Hy. unfold human_impact, human_impact_formula.
  by_segment y; try lia; decide_tests; split_bounds; z_to_q; lra.
Qed.

Section RunColumns.

Context {np : NumPy}.

Variable dt : string.

Let self : EarthDataAnalyzer := __init__ dt.

(** Entry [i] of a column computed date by date. *)
Lemma run_map_dates_nth {A : Type} (f : Timestamp.t -> A) (d : A) (i : nat) :
  (i < 176)%nat ->
  nth i (map f (earth_dates self)) d
  = f (Timestamp.make (1850 + Z.of_nat i) 12 31).
Proof.
  intros Hi. apply nth_error_nth_default. unfold self.
  rewrite nth_error_map, (run_dates_nth dt i Hi). reflexivity.
Qed.

Lemma run_row_Human_Impact g (i : nat) :
  (i < 176)%nat ->
  Human_Impact (data_row (fst (earth_data self g)) i)
  = human_impact (1850 + Z.of_nat i).
Proof.
  intros Hi. cbn [data_row Human_Impact].
  change (data_Human_Impact (fst (earth_data self g)))
    with (_simulate_human_impact self (earth_dates self)).
  unfold _simulate_human_impact. now rewrite run_map_dates_nth.
Qed.

Lemma run_row_Annual_Cycle g (i : nat) :
  (i < 176)%nat ->
  Annual_Cycle (data_row (fst (earth_data self g)) i)
  = Py.mod1 (inject_Z (1850 + Z.of_nat i - 1850)).
Proof.
  intros Hi. cbn [data_row Annual_Cycle].
  change (data_Annual_Cycle (fst (earth_data self g)))
    with (_simulate_annual_cycle self (earth_dates self)).
  unfold _simulate_annual_cycle. now rewrite run_map_dates_nth.
Qed.

Lemma run_row_Seasonal_Min g (i : nat) :
  (i < 176)%nat ->
  Seasonal_Min (data_row (fst (earth_data self g)) i)
  = let seasonal_phase := Py.mod1 (inject_Z (1850 + Z.of_nat i - 1850)) in
    if String.eqb dt "temperature"
    then if Py.lt seasonal_phase 0.25 || Py.lt 0.75 seasonal_phase
         then 0.7 else 1.0
    else 0.8 + 0.2 * sin_2pi seasonal_phase.
Proof.
  intros Hi. cbn [data_row Seasonal_Min].
  change (data_Seasonal_Min (fst (earth_data self g)))
    with (_simulate_seasonal_minima self (earth_dates self)).
  unfold _simulate_seasonal_minima. now rewrite run_map_dates_nth.
Qed.

Lemma run_row_Seasonal_Max g (i : nat) :
  (i < 176)%nat ->
  Seasonal_Max (data_row (fst (earth_data self g)) i)
  = let seasonal_phase := Py.mod1 (inject_Z (1850 + Z.of_nat i - 1850)) in
    if String.eqb dt "temperature"
    then if Py.le 0.25 seasonal_phase && Py.le seasonal_phase 0.75
         then 1.0 else 0.8
    else 1.0 + 0.2 * sin_2pi seasonal_phase.
Proof.
  intros Hi. cbn [data_row Seasonal_Max].
  change (data_Seasonal_Max (fst (earth_data self g)))
    with (_simulate_seasonal_maxima self (earth_dates self)).
  unfold _simulate_seasonal_maxima. now rewrite run_map_dates_nth.
Qed.

Lemma run_row_Monthly_Variation g (i : nat) :
  (i < 176)%nat ->
  Monthly_Variation (data_row (fst (earth_data self g)) i)
  = 1 + 0.1 * sin_2pi (inject_Z 11 / 12).
Proof.
  intros Hi. cbn [data_row Monthly_Variation].
  change (data_Monthly_Variation (fst (earth_data self g)))
    with (_simulate_monthly_variation self (earth_dates self)).
  unfold _simulate_monthly_variation. now rewrite run_map_dates_nth.
Qed.

(** Row [i] of the finished frame, the other way round from
    [run_final_nth]. *)
Lemma run_final_row g (i : nat) :
  (i < 176)%nat ->
  nth_error (fst (generate_earth_data self g)) i
  = Some (overlay_row self (data_row (fst (earth_data self g)) i)).
Proof.
  intros Hi. rewrite generate_earth_data_fst.
  apply add_climate_events_nth. now apply run_frame_row.
Qed.

(** X5.  In every record of a run [Annual_Cycle] is zero, because the years
    are whole numbers; so a temperature run has [Seasonal_Min = 0.7]
    and [Seasonal_Max = 0.8] in every record (always the winter case,
    never the summer one). *)
Theorem annual_cycle_is_zero (g : RandomState) (row : Row) :
  In row (fst (generate_earth_data self g)) ->
  Annual_Cycle row == 0
  /\ (dt = "temperature" ->
      Seasonal_Min row = 0.7 /\ Seasonal_Max row = 0.8).
Proof.
  intros Hin. apply In_nth_error in Hin. destruct Hin as [i Hi].
  apply run_final_nth in Hi. destruct Hi as [Hi ->].
  destruct (overlay_row_other_columns (__init__ dt)
              (data_row (fst (earth_data (__init__ dt) g)) i))
    as [_ [Hmin [Hmax [Hann _]]]].
  rewrite Hmin, Hmax, Hann.
  rewrite run_row_Annual_Cycle, run_row_Seasonal_Min, run_row_Seasonal_Max
    by exact Hi.
  pose proof (Py_mod1_int (1850 + Z.of_nat i - 1850)) as Hz.
  split; [exact Hz | ].
  intros ->. cbv zeta. cbn [String.eqb Ascii.eqb Bool.eqb].
  revert Hz. generalize (Py.mod1 (inject_Z (1850 + Z.of_nat i - 1850))).
  intros q Hz. unfold Py.le.
  destruct (Py_lt_spec q 0.25) as [_ | Hn]; [ | exfalso; lra].
  cbn [orb]. split; [reflexivity | ].
  destruct (Qle_bool 0.25 q) eqn:E; [ | reflexivity].
  apply Qle_bool_iff in E. exfalso. lra.
Qed.

(** X6.  Every date of a run is a 31 December, so [Monthly_Variation] has
    the same value in every record: one plus a tenth of the sine of
    eleven twelfths of a turn. *)
Theorem monthly_variation_is_constant (g : RandomState) (row : Row) :
  In row (fst (generate_earth_data self g)) ->
  Monthly_Variation row = 1 + 0.1 * sin_2pi (inject_Z 11 / 12).
Proof.
  intros Hin. apply In_nth_error in Hin. destruct Hin as [i Hi].
  apply run_final_nth in Hi. destruct Hi as [Hi ->].
  destruct (overlay_row_other_columns (__init__ dt)
              (data_row (fst (earth_data (__init__ dt) g)) i))
    as [_ [_ [_ [_ [_ [_ [_ [Hm _]]]]]]]].
  rewrite Hm. now apply run_row_Monthly_Variation.
Qed.

(** X7.  Along the records of a run [Human_Impact] never decreases, and it
    stays between 1.25 (in 1850) and 4.2 (in 2025), whatever the
    variable type and the draws. *)
Theorem human_impact_column_monotone (g : RandomState) (i j : nat)
    (ri rj : Row) :
  nth_error (fst (generate_earth_data self g)) i = Some ri ->
  nth_error (fst (generate_earth_data self g)) j = Some rj ->
  (i <= j)%nat ->
  Human_Impact ri <= Human_Impact rj
  /\ 1.25 <= Human_Impact ri <= 4.2.
Proof.
  intros Hi Hj Hij.
  apply run_final_nth in Hi. destruct Hi as [Hi ->].
  apply run_final_nth in Hj. destruct Hj as [Hj ->].
  destruct (overlay_row_other_columns (__init__ dt)
              (data_row (fst (earth_data (__init__ dt) g)) i))
    as [_ [_ [_ [_ [_ [Hhi _]]]]]].
  destruct (overlay_row_other_columns (__init__ dt)
              (data_row (fst (earth_data (__init__ dt) g)) j))
    as [_ [_ [_ [_ [_ [Hhj _]]]]]].
  rewrite Hhi, Hhj, !run_row_Human_Impact by assumption.
  split.
  - apply human_impact_monotone. lia.
  - apply human_impact_from_1850. lia.
Qed.

End RunColumns.

Lemma annual_cycle_is_zero_witness :
  let df := fst (generate_earth_data (np := counting_numpy)
                   (__init__ "temperature") 0%Z) in
  exists row,
    nth_error df 60 = Some row
    /\ Annual_Cycle row == 0
    /\ Seasonal_Min row = 0.7 /\ Seasonal_Max row = 0.8.
Proof.
  intros df. at_row df 60%nat.
  exists row. split; [reflexivity | ].
  destruct (annual_cycle_is_zero (np := counting_numpy) "temperature" 0%Z
              row (nth_error_In _ _ E)) as [H0 Hs].
  split; [exact H0 | exact (Hs eq_refl)].
Defined.

Lemma monthly_variation_is_constant_witness :
  let df := fst (generate_earth_data (np := counting_numpy)
                   (__init__ "glaciers") 0%Z) in
  exists row,
    nth_error df 60 = Some row /\ Monthly_Variation row == 0.95.
Proof.
  intros df. at_row df 60%nat.
  exists row. split; [reflexivity | ].
  rewrite (monthly_variation_is_constant (np := counting_numpy)
             "glaciers" 0%Z row (nth_error_In _ _ E)).
  vm_compute. reflexivity.
Defined.

Lemma human_impact_column_monotone_witness :
  let df := fst (generate_earth_data (np := counting_numpy)
                   (__init__ "ocean_ph") 0%Z) in
  exists r1 r2,
    nth_error df 99 = Some r1 /\ nth_error df 100 = Some r2
    /\ Human_Impact r1 <= Human_Impact r2.
Proof.
  intros df. at_row df 99%nat. rename row into r1, E into E1.
  at_row df 100%nat.
  exists r1, row. split; [reflexivity | ]. split; [reflexivity | ].
  apply (human_impact_column_monotone (np := counting_numpy)
           "ocean_ph" 0%Z 99 100 r1 row E1 E).
  lia.
Defined.

(* ------------------------------------------------------------------ *)
(** ** Extreme events *)
(* ------------------------------------------------------------------ *)

Section ExtremeEvents.

Context {np : NumPy}.

Lemma for_each_Forall2_in {A B : Type} (P : A -> B -> Prop)
    (body : A -> Rand B) (xs : list A) (g : RandomState) :
  (forall x g', In x xs -> P x (fst (body x g'))) ->
  Forall2 P xs (fst (for_each body xs g)).
Proof.
  revert g. induction xs as [ | x xs IH]; intros g HP; [constructor | ].
  cbn [for_each]. unfold bind, ret. cbv zeta. cbn [fst snd].
  constructor.
  - apply HP. now left.
  - apply IH. intros y g' Hy. apply HP. now right.
Qed.

(** X8.  The probability of an extreme event grows from 0.1 in 1850 to
    0.275 in 2025 and so stays below the cap of 0.8.  Hence for dates
    in 1850..2025: when every uniform draw is at least 0.275 no year
    has an extreme event (every intensity is 1), and when every draw is
    below 0.1 every year has one, of intensity
    [1 + 0.5 * (year - 1850) / 100]. *)
Theorem extreme_events_thresholds (self : EarthDataAnalyzer)
    (dates : list Timestamp.t) (g : RandomState) :
  (forall d, In d dates -> (1850 <= Timestamp.year d <= 2025)%Z) ->
  ((forall g', 0.275 <= fst (random_sample g')) ->
   Forall2 (fun _ e => e = 1.0)
           dates (fst (_simulate_extreme_events self dates g)))
  /\ ((forall g', fst (random_sample g') < 0.1) ->
      Forall2 (fun d e =>
                 e = 1.0 + 0.5 * inject_Z (Timestamp.year d - 1850) / 100)
              dates (fst (_simulate_extreme_events self dates g))).
Proof.
  intros Hy. split; intros Hu; apply for_each_Forall2_in;
    intros d g' Hd; specialize (Hy d Hd); specialize (Hu g');
    unfold bind, ret, np_random_random; cbv zeta; cbn [fst snd];
    revert Hu; generalize (fst (random_sample g')); intros u Hu;
    revert Hy; generalize (Timestamp.year d); intros y Hy.
  - destruct (Py_lt_spec u (Py.min 0.8
                (0.1 + 0.001 * inject_Z (y - 1850))))
      as [Hlt | _]; [ | reflexivity].
    exfalso.
    pose proof (Py_min_le_r 0.8
                  (0.1 + 0.001 * inject_Z (y - 1850))) as Hm.
    split_bounds. z_to_q. lra.
  - destruct (Py_lt_spec u (Py.min 0.8
                (0.1 + 0.001 * inject_Z (y - 1850))))
      as [_ | Hn]; [reflexivity | ].
    exfalso. apply Hn.
    apply Qlt_le_trans with (y := 0.1); [exact Hu | ].
    clear Hn. apply Py_min_glb; split_bounds; z_to_q; lra.
Qed.

End ExtremeEvents.

Lemma extreme_events_thresholds_witness :
  let self := __init__ "co2" in
  Forall2 (fun _ e => e = 1.0) (earth_dates self)
          (fst (_simulate_extreme_events (np := silent_numpy) self
                  (earth_dates self) tt)).
Proof.
  intros self.
  apply (extreme_events_thresholds (np := silent_numpy)).
  - intros d Hd. unfold self, earth_dates, pd_date_range in Hd.
    apply in_map_iff in Hd. destruct Hd as [k [<- Hk]].
    apply in_seq in Hk. cbn [Timestamp.year].
    change (start_year (__init__ "co2")) with 1850%Z in *.
    change (end_year (__init__ "co2")) with 2025%Z in *. lia.
  - intros g'. simpl. discriminate.
Defined.

(* ------------------------------------------------------------------ *)
(** ** Risk and extreme events in the finished records *)
(* ------------------------------------------------------------------ *)

(** What the pass does to [Risk_Level] and [Extreme_Events] of a row
    whose year is one of a run. *)
Lemma overlay_row_Risk_Level_from_1850 (self : EarthDataAnalyzer) (r : Row) :
  (1850 <= Year r)%Z ->
  Risk_Level (overlay_row self r)
  = if (1930 <=? Year r)%Z && (Year r <=? 1939)%Z
    then if Py.str_in (data_type self) ["temperature"; "precipitation"]
         then Risk_Level r * 1.3 else Risk_Level r
    else if (1982 <=? Year r)%Z && (Year r <=? 1983)%Z then Risk_Level r
    else if (1997 <=? Year r)%Z && (Year r <=? 1998)%Z then Risk_Level r
    else if String.eqb (data_type self) "temperature"
         then Py.min 100 (Risk_Level r * 1.4) else Risk_Level r.
Proof.
  intros Hy. unfold overlay_row, event_of_year.
  change (Py.truthy 2003) with true.
  replace ((1815 <=? Year r)%Z && (Year r <=? 1816)%Z) with false
    by test_value.
  destruct ((1930 <=? Year r)%Z && (Year r <=? 1939)%Z);
    [cbn [event_assignments]; destruct (Py.str_in _ _); reflexivity | ].
  destruct ((1982 <=? Year r)%Z && (Year r <=? 1983)%Z); [reflexivity | ].
  destruct ((1997 <=? Year r)%Z && (Year r <=? 1998)%Z); [reflexivity | ].
  cbn [event_assignments]. destruct (String.eqb _ _); reflexivity.
Qed.

Lemma overlay_row_Extreme_Events_from_1850 (self : EarthDataAnalyzer)
    (r : Row) :
  (1850 <= Year r)%Z ->
  Extreme_Events (overlay_row self r)
  = if (1982 <=? Year r)%Z && (Year r <=? 1983)%Z
    then Extreme_Events r * 1.5
    else if (1997 <=? Year r)%Z && (Year r <=? 1998)%Z
    then Extreme_Events r * 1.8
    else Extreme_Events r.
Proof.
  intros Hy. unfold overlay_row, event_of_year.
  change (Py.truthy 2003) with true.
  replace ((1815 <=? Year r)%Z && (Year r <=? 1816)%Z) with false
    by test_value.
  destruct ((1930 <=? Year r)%Z && (Year r <=? 1939)%Z) eqn:E1.
  { replace ((1982 <=? Year r)%Z && (Year r <=? 1983)%Z) with false
      by (revert E1; test_value).
    replace ((1997 <=? Year r)%Z && (Year r <=? 1998)%Z) with false
      by (revert E1; test_value).
    cbn [event_assignments]. destruct (Py.str_in _ _); reflexivity. }
  destruct ((1982 <=? Year r)%Z && (Year r <=? 1983)%Z); [reflexivity | ].
  destruct ((1997 <=? Year r)%Z && (Year r <=? 1998)%Z); [reflexivity | ].
  cbn [event_assignments]. destruct (String.eqb _ _); reflexivity.
Qed.

Section RunRisk.

Context {np : NumPy}.

Variable dt : string.

(** The extreme-event intensity of row [i] before the overlay. *)
Lemma run_row_Extreme_Events (g : RandomState) (i : nat) :
  (i < 176)%nat ->
  let e := Extreme_Events (data_row (fst (earth_data (__init__ dt) g)) i) in
  e = 1.0 + 0.5 * inject_Z (1850 + Z.of_nat i - 1850) / 100 \/ e = 1.0.
Proof.
  intros Hi. cbn [data_row Extreme_Events].
  change (data_Extreme_Events (fst (earth_data (__init__ dt) g)))
    with (fst (_simulate_extreme_events (__init__ dt)
                 (earth_dates (__init__ dt))
                 (rng_at_extreme_events (__init__ dt) g))).
  pose proof (simulate_extreme_events_values (__init__ dt)
                (earth_dates (__init__ dt))
                (rng_at_extreme_events (__init__ dt) g)) as HF.
  destruct (Forall2_nth_error _ _ _ _ _ HF (run_dates_nth dt i Hi))
    as [e [He Hval]].
  rewrite (nth_error_nth_default _ _ _ 0 He). exact Hval.
Qed.

(** X9.  Every record of a run has an extreme-event intensity of at least 1
    and at most 3.132, the value reached when the 1998 record has an
    event; outside 1982-1983 and 1997-1998 it is at most 1.875. *)
Theorem extreme_events_column_bounds (g : RandomState) (row : Row) :
  In row (fst (generate_earth_data (__init__ dt) g)) ->
  1 <= Extreme_Events row <= 3.132
  /\ (~ (1982 <= Year row <= 1983)%Z -> ~ (1997 <= Year row <= 1998)%Z ->
      Extreme_Events row <= 1.875).
Proof.
  intros Hin. apply In_nth_error in Hin. destruct Hin as [i Hi].
  apply run_final_nth in Hi. destruct Hi as [Hi ->].
  pose proof (run_row_Extreme_Events g i Hi) as He. cbv zeta in He.
  pose proof (run_row_Year dt g i Hi) as HY.
  rewrite overlay_row_Year.
  rewrite overlay_row_Extreme_Events_from_1850 by (rewrite HY; lia).
  revert He HY.
  generalize (data_row (fst (earth_data (__init__ dt) g)) i).
  intros r He HY. rewrite HY.
  assert (Hy : (1850 <= 1850 + Z.of_nat i <= 2025)%Z) by lia.
  revert He Hy. generalize (1850 + Z.of_nat i)%Z. clear HY Hi i.
  intros y He Hy. revert He. generalize (Extreme_Events r). clear r.
  intros e He.
  destruct (event_ranges y) as [H | [H | [H | [H | H]]]];
    try lia; decide_tests; cbv iota;
    (split; [ | intros; try lia ]);
    destruct He as [-> | ->]; split_bounds; z_to_q; div_consts;
    try split; lra.
Qed.

(** X10.  Every record of a run, for every variable type and whatever is
    drawn, has a risk level of at least 25. *)
Theorem risk_level_at_least_25 (g : RandomState) (row : Row) :
  In row (fst (generate_earth_data (__init__ dt) g)) ->
  25 <= Risk_Level row.
Proof.
  intros Hin. apply In_nth_error in Hin. destruct Hin as [i Hi].
  apply run_final_nth in Hi. destruct Hi as [Hi ->].
  destruct (run_row_Risk_Level dt g i Hi) as [e [He HR]].
  pose proof (run_row_Year dt g i Hi) as HY.
  rewrite overlay_row_Risk_Level_from_1850 by (rewrite HY; lia).
  revert HR HY.
  generalize (data_row (fst (earth_data (__init__ dt) g)) i).
  intros r HR HY. rewrite HR. clear HR.
  assert (Hy : (1850 <= 1850 + Z.of_nat i <= 2025)%Z) by lia.
  revert He Hy. generalize (1850 + Z.of_nat i)%Z. clear HY Hi i.
  intros y He Hy.
  pose proof (human_impact_from_1850 y Hy) as Hh.
  assert (He1 : 1 <= e).
  { destruct He as [-> | ->]; split_bounds; z_to_q; div_consts; lra. }
  assert (HR : 25 <= Py.min 100 (human_impact y * 20 + (e - 1) * 50))
    by (apply Py_min_glb; lra).
  revert HR. generalize (Py.min 100 (human_impact y * 20 + (e - 1) * 50)).
  intros R HR.
  repeat match goal with
  | |- context [if ?c then _ else _] => destruct c
  end; try lra.
  apply Py_min_glb; lra.
Qed.

End RunRisk.

(** X11.  In a temperature run every record from 2010 on has a risk level of
    exactly 100, whatever is drawn: the human-impact term alone is at
    least 72 there, and the 2003 branch multiplies by 1.4 and caps. *)
Theorem temperature_risk_saturates {np : NumPy} (g : RandomState)
    (row : Row) :
  In row (fst (generate_earth_data (__init__ "temperature") g)) ->
  (2010 <= Year row)%Z ->
  Risk_Level row = 100.
Proof.
  intros Hin. apply In_nth_error in Hin. destruct Hin as [i Hi].
  apply run_final_nth in Hi. destruct Hi as [Hi ->].
  destruct (run_row_Risk_Level "temperature" g i Hi) as [e [He HR]].
  pose proof (run_row_Year "temperature" g i Hi) as HY.
  rewrite overlay_row_Year.
  rewrite overlay_row_Risk_Level_from_1850 by (rewrite HY; lia).
  revert HR HY.
  generalize (data_row (fst (earth_data (__init__ "temperature") g)) i).
  intros r HR HY. rewrite HR, HY. clear HR HY r.
  intros H2010.
  assert (Hy : (2010 <= 1850 + Z.of_nat i <= 2025)%Z) by lia.
  revert He Hy. generalize (1850 + Z.of_nat i)%Z. clear H2010 Hi i.
  intros y He Hy.
  decide_tests. cbv iota.
  change (String.eqb (data_type (__init__ "temperature")) "temperature")
    with true. cbv iota.
  assert (Hh : 72 <= human_impact y * 20).
  { unfold human_impact, human_impact_formula. decide_tests.
    split_bounds. z_to_q. lra. }
  assert (He1 : 1 <= e).
  { destruct He as [-> | ->]; split_bounds; z_to_q; div_consts; lra. }
  assert (HR : 72 <= Py.min 100 (human_impact y * 20 + (e - 1) * 50))
    by (apply Py_min_glb; lra).
  revert HR. generalize (Py.min 100 (human_impact y * 20 + (e - 1) * 50)).
  intros R HR. unfold Py.min.
  destruct (Py_lt_spec (R * 1.4) 100) as [Hlt | _]; [ | reflexivity].
  exfalso. lra.
Qed.

Lemma extreme_events_column_bounds_witness :
  let df := fst (generate_earth_data (np := counting_numpy)
                   (__init__ "sea_level") 0%Z) in
  exists row,
    nth_error df 148 = Some row /\ 1 <= Extreme_Events row <= 3.132.
Proof.
  intros df. at_row df 148%nat.
  exists row. split; [reflexivity | ].
  apply (extreme_events_column_bounds (np := counting_numpy) "sea_level"
           0%Z row (nth_error_In _ _ E)).
Defined.

Lemma risk_level_at_least_25_witness :
  let df := fst (generate_earth_data (np := counting_numpy)
                   (__init__ "biodiversity") 0%Z) in
  exists row, nth_error df 0 = Some row /\ 25 <= Risk_Level row.
Proof.
  intros df. at_row df 0%nat.
  exists row. split; [reflexivity | ].
  apply (risk_level_at_least_25 (np := counting_numpy) "biodiversity"
           0%Z row (nth_error_In _ _ E)).
Defined.

Lemma temperature_risk_saturates_witness :
  let df := fst (generate_earth_data (np := silent_numpy)
                   (__init__ "temperature") tt) in
  exists row,
    nth_error df 160 = Some row /\ Year row = 2010%Z
    /\ Risk_Level row = 100.
Proof.
  intros df. at_row df 160%nat.
  assert (HY : Year row = 2010%Z).
  { vm_compute in E. injection E as <-. reflexivity. }
  exists row. split; [reflexivity | ]. split; [exact HY | ].
  apply (temperature_risk_saturates (np := silent_numpy) tt row
           (nth_error_In _ _ E)).
  rewrite HY. lia.
Defined.

(* ------------------------------------------------------------------ *)
(** ** Runs without noise *)
(* ------------------------------------------------------------------ *)

Section FrameColumns.

Context {np : NumPy}.

Variable dt : string.

(** The smoothed value and the projection of row [i] before the
    overlay, each from the cycle sequence of its own step. *)
Lemma run_row_Smoothed_Value (g : RandomState) (i : nat) :
  (i < 176)%nat ->
  Smoothed_Value (data_row (fst (earth_data (__init__ dt) g)) i)
  = np_mean (smoothing_window
               (fst (_simulate_earth_cycle (__init__ dt)
                       (earth_dates (__init__ dt))
                       (rng_at_smoothed_data (__init__ dt) g)))
               (Z.of_nat i)).
Proof.
  intros Hi. cbn [data_row Smoothed_Value].
  rewrite earth_data_Smoothed_Value.
  unfold _simulate_smoothed_data, bind, ret. cbv zeta. cbn [fst snd].
  apply nth_map_range.
  unfold Py.len. rewrite simulate_earth_cycle_length.
  change (length (earth_dates (__init__ dt))) with 176%nat. lia.
Qed.

Lemma run_row_Future_Projection (g : RandomState) (i : nat) :
  (i < 176)%nat ->
  (1850 + Z.of_nat i <= 2020)%Z ->
  Future_Projection (data_row (fst (earth_data (__init__ dt) g)) i)
  = nth i (fst (_simulate_earth_cycle (__init__ dt)
                  (earth_dates (__init__ dt))
                  (rng_at_future_projection (__init__ dt) g))) 0.
Proof.
  intros Hi Hy. cbn [data_row Future_Projection].
  rewrite earth_data_Future_Projection.
  unfold _simulate_future_projection, bind. cbv zeta. cbn [fst snd].
  set (base_cycle := fst (_simulate_earth_cycle (__init__ dt)
                            (earth_dates (__init__ dt))
                            (rng_at_future_projection (__init__ dt) g))).
  match goal with
  | |- nth i (fst (for_each ?body ?xs ?g')) 0 = _ =>
      assert (HF : Forall2
                (fun (it : Z * Timestamp.t) v =>
                   (Timestamp.year (snd it) <= 2020)%Z ->
                   v = Py.item base_cycle (fst it))
                xs (fst (for_each body xs g')))
  end.
  { apply for_each_Forall2. intros [k date] g' Hk. cbn [fst snd] in *.
    replace (2020 <? Timestamp.year date)%Z with false
      by (symmetry; apply Z.ltb_ge; exact Hk).
    reflexivity. }
  assert (Hnth : nth_error (enumerate (earth_dates (__init__ dt))) i
                 = Some (Z.of_nat i,
                         Timestamp.make (1850 + Z.of_nat i) 12 31)).
  { unfold enumerate. apply nth_error_combine.
    - apply nth_error_range.
      change (Py.len (earth_dates (__init__ dt))) with 176%Z. lia.
    - apply run_dates_nth. exact Hi. }
  destruct (Forall2_nth_error _ _ _ _ _ HF Hnth) as [v [Hv Hval]].
  rewrite (nth_error_nth_default _ _ _ 0 Hv).
  cbn [fst snd Timestamp.year] in Hval.
  rewrite (Hval Hy). unfold Py.item. now rewrite Nat2Z.id.
Qed.

Lemma run_row_Environmental_Index (g : RandomState) (i : nat) :
  (i < 176)%nat ->
  Environmental_Index (data_row (fst (earth_data (__init__ dt) g)) i)
  = nth i (fst (_simulate_earth_cycle (__init__ dt)
                  (earth_dates (__init__ dt))
                  (rng_at_environmental_index (__init__ dt) g))) 0 * 0.6
    + Climate_Trend (data_row (fst (earth_data (__init__ dt) g)) i)
      * base_value (config (__init__ dt)) * 0.4.
Proof.
  intros Hi. cbn [data_row Environmental_Index Climate_Trend].
  change (data_Environmental_Index (fst (earth_data (__init__ dt) g)))
    with (fst (_simulate_environmental_index (__init__ dt)
                 (earth_dates (__init__ dt))
                 (rng_at_environmental_index (__init__ dt) g))).
  change (data_Climate_Trend (fst (earth_data (__init__ dt) g)))
    with (_simulate_climate_trend (__init__ dt) (earth_dates (__init__ dt))).
  unfold _simulate_environmental_index, bind, ret. cbv zeta. cbn [fst snd].
  rewrite nth_map_range
    by (change (Py.len (earth_dates (__init__ dt))) with 176%Z; lia).
  unfold Py.item. now rewrite Nat2Z.id.
Qed.

End FrameColumns.

Section NoiseFree.

Context {np : NumPy}.

(** Without noise the cycle generator returns the same sequence from
    every generator state. *)
Lemma simulate_earth_cycle_noise_free (self : EarthDataAnalyzer)
    (dates : list Timestamp.t) (g1 g2 : RandomState) :
  (forall g, fst (standard_normal g) = 0) ->
  fst (_simulate_earth_cycle self dates g1)
  = fst (_simulate_earth_cycle self dates g2).
Proof.
  intros H0. unfold _simulate_earth_cycle.
  revert g1 g2. induction dates as [ | d dates IH]; intros g1 g2.
  - reflexivity.
  - cbn [for_each]. unfold bind, ret, np_random_normal. cbv zeta.
    cbn [fst snd]. rewrite !H0. f_equal. apply IH.
Qed.

Lemma pd_DataFrame_Base_Value (data : Data) :
  length (data_Base_Value data) = length (data_Year data) ->
  map Base_Value (pd_DataFrame data) = data_Base_Value data.
Proof.
  intros Hlen. unfold pd_DataFrame. rewrite map_map.
  cbn [data_row Base_Value]. rewrite <- Hlen. apply map_nth_seq.
Qed.

Lemma run_frame_Base_Value (dt : string) (g : RandomState) :
  map Base_Value (fst (earth_data_frame (__init__ dt) g))
  = fst (_simulate_earth_cycle (__init__ dt) (earth_dates (__init__ dt)) g).
Proof.
  rewrite earth_data_frame_fst, pd_DataFrame_Base_Value.
  - apply earth_data_Base_Value.
  - rewrite earth_data_Base_Value, earth_data_Year,
      simulate_earth_cycle_length, length_map. reflexivity.
Qed.

(** X12.  When every normal draw is zero, the frame before the overlay is
    consistent: [Smoothed_Value] is the moving average of the
    [Base_Value] column over [max(0,i-5)] up to (exclusive)
    [min(176,i+5)], [Environmental_Index] is
    [0.6 * Base_Value + 0.4 * Climate_Trend * base_value] of the same
    record, and [Future_Projection] equals [Base_Value] in every record
    with [year <= 2020]. *)
Theorem noise_free_frame_is_consistent (dt : string) (g : RandomState)
    (i : nat) (row : Row) :
  (forall g', fst (standard_normal g') = 0) ->
  nth_error (fst (earth_data_frame (__init__ dt) g)) i = Some row ->
  let Base := map Base_Value (fst (earth_data_frame (__init__ dt) g)) in
  Py.len Base = 176%Z
  /\ Smoothed_Value row
     = np_mean (Py.slice Base (Z.max 0 (Z.of_nat i - 5))
                              (Z.min (Py.len Base) (Z.of_nat i + 5)))
  /\ Environmental_Index row
     = Base_Value row * 0.6
       + Climate_Trend row * base_value (config (__init__ dt)) * 0.4
  /\ ((Year row <= 2020)%Z -> Future_Projection row = Base_Value row).
Proof.
  intros H0 Hrow Base.
  pose proof (run_frame_Base_Value dt g) as HB. fold Base in HB.
  apply run_frame_nth in Hrow. destruct Hrow as [Hi ->].
  split; [ | split; [ | split]].
  - rewrite HB. unfold Py.len. rewrite simulate_earth_cycle_length.
    reflexivity.
  - rewrite run_row_Smoothed_Value by exact Hi.
    rewrite (simulate_earth_cycle_noise_free _ _ _ g H0), <- HB.
    now rewrite smoothing_window_slice.
  - rewrite run_row_Environmental_Index by exact Hi.
    rewrite (simulate_earth_cycle_noise_free _ _ _ g H0).
    cbn [data_row Base_Value]. now rewrite earth_data_Base_Value.
  - rewrite run_row_Year by exact Hi. intros Hy.
    rewrite run_row_Future_Projection by assumption.
    rewrite (simulate_earth_cycle_noise_free _ _ _ g H0).
    cbn [data_row Base_Value]. now rewrite earth_data_Base_Value.
Qed.

End NoiseFree.

Lemma noise_free_frame_is_consistent_witness :
  let self := __init__ "precipitation" in
  let df := fst (earth_data_frame (np := silent_numpy) self tt) in
  exists row,
    nth_error df 3 = Some row
    /\ Smoothed_Value row
       = np_mean (Py.slice (map Base_Value df) 0 8)
    /\ Future_Projection row = Base_Value row.
Proof.
  intros self df. at_row df 3%nat.
  exists row. split; [reflexivity | ].
  destruct (noise_free_frame_is_consistent (np := silent_numpy)
              "precipitation" tt 3 row (fun _ => eq_refl) E)
    as [_ [Hs [_ Hp]]].
  split; [exact Hs | ].
  apply Hp. vm_compute in E. injection E as <-. vm_compute. discriminate.
Defined.

(* ------------------------------------------------------------------ *)
(** ** The choice of the variable type in [main] *)
(* ------------------------------------------------------------------ *)

Lemma supported_types_not_default (key : string) :
  In key earth_data_types -> _get_earth_config key <> default_config.
Proof.
  intros Hin H. apply (f_equal description) in H. simpl in Hin.
  repeat (destruct Hin as [<- | Hin]; [vm_compute in H; discriminate H | ]).
  contradiction.
Qed.

Lemma main_try_in_range (choix : Z) :
  (1 <= choix <= 8)%Z ->
  exists key,
    nth_error earth_data_types (Z.to_nat (choix - 1)) = Some key
    /\ main_try (Returns choix) = Returns key.
Proof.
  intros Hc.
  assert (Hcases : (choix = 1 \/ choix = 2 \/ choix = 3 \/ choix = 4
                    \/ choix = 5 \/ choix = 6 \/ choix = 7 \/ choix = 8)%Z)
    by lia.
  repeat (destruct Hcases as [-> | Hcases];
          [eexists; split; reflexivity | ]).
  subst choix. eexists; split; reflexivity.
Qed.

Lemma main_try_out_of_range (choix : Z) :
  ~ (1 <= choix <= 8)%Z -> main_try (Returns choix) = Raises ValueError.
Proof.
  intros Hc. unfold main_try, try_bind.
  change (Py.len earth_data_types) with 8%Z.
  replace ((choix <? 1)%Z || (8 <? choix)%Z) with true; [reflexivity | ].
  symmetry. destruct (Z.ltb_spec choix 1); [reflexivity | ].
  destruct (Z.ltb_spec 8 choix); [reflexivity | lia].
Qed.

(** X13.  Whatever integer is entered, the lookup in the list of types does
    not raise [IndexError], the selected type is one of the eight
    supported keys, and the analyzer that [main] builds never has the
    default profile. *)
Theorem main_selects_a_supported_type (entered : Try Z) :
  (forall choix, entered = Returns choix -> main_try entered <> Raises IndexError)
  /\ In (main_selected_type entered) earth_data_types
  /\ config (main_analyzer entered) <> default_config.
Proof.
  assert (Hin : In (main_selected_type entered) earth_data_types).
  { unfold main_selected_type. destruct entered as [choix | e].
    - destruct (Z_le_dec 1 choix) as [H1 | H1];
        [destruct (Z_le_dec choix 8) as [H8 | H8] | ].
      + destruct (main_try_in_range choix (conj H1 H8)) as [key [Hk ->]].
        eapply nth_error_In. exact Hk.
      + rewrite main_try_out_of_range by lia. simpl. tauto.
      + rewrite main_try_out_of_range by lia. simpl. tauto.
    - destruct e; simpl; tauto. }
  split; [ | split; [exact Hin | ]].
  - intros choix ->.
    destruct (Z_le_dec 1 choix) as [H1 | H1];
      [destruct (Z_le_dec choix 8) as [H8 | H8] | ].
    + destruct (main_try_in_range choix (conj H1 H8)) as [key [_ ->]].
      discriminate.
    + rewrite main_try_out_of_range by lia. discriminate.
    + rewrite main_try_out_of_range by lia. discriminate.
  - unfold main_analyzer, __init__. cbn [config].
    now apply supported_types_not_default.
Qed.

Lemma main_selects_a_supported_type_witness :
  main_try (Returns 9%Z) <> Raises IndexError
  /\ In (main_selected_type (Returns 9%Z)) earth_data_types.
Proof.
  split.
  - apply (proj1 (main_selects_a_supported_type (Returns 9%Z)) 9%Z eq_refl).
  - apply (proj1 (proj2 (main_selects_a_supported_type (Returns 9%Z)))).
Defined.

(** X14.  An entry from 1 to 8 selects the type at that place of the list;
    any other integer, and any text that is not an integer, selects
    temperature. *)
Theorem main_selection_by_number (entered : Try Z) :
  (forall choix, entered = Returns choix -> (1 <= choix <= 8)%Z ->
     nth_error earth_data_types (Z.to_nat (choix - 1))
     = Some (main_selected_type entered))
  /\ (forall choix, entered = Returns choix -> ~ (1 <= choix <= 8)%Z ->
        main_selected_type entered = "temperature")
  /\ (entered = Raises ValueError ->
      main_selected_type entered = "temperature").
Proof.
  repeat split.
  - intros choix -> Hc. unfold main_selected_type.
    destruct (main_try_in_range choix Hc) as [key [Hk ->]]. exact Hk.
  - intros choix -> Hc. unfold main_selected_type.
    now rewrite main_try_out_of_range.
  - intros ->. reflexivity.
Qed.

Lemma main_selection_by_number_witness :
  main_selected_type (Returns 5%Z) = "glaciers"
  /\ main_selected_type (Returns 0%Z) = "temperature"
  /\ main_selected_type (Raises ValueError) = "temperature".
Proof.
  split; [ | split].
  - pose proof (proj1 (main_selection_by_number (Returns 5%Z)) 5%Z eq_refl
                  ltac:(lia)) as H.
    simpl in H. congruence.
  - apply (proj1 (proj2 (main_selection_by_number (Returns 0%Z))) 0%Z eq_refl).
    lia.
  - apply (proj2 (proj2 (main_selection_by_number (Raises ValueError)))).
    reflexivity.
Defined.

(* ------------------------------------------------------------------ *)
(** ** The reported figures *)
(* ------------------------------------------------------------------ *)

Lemma iloc_last_nth (s : list Q) (n : nat) (x : Q) :
  length s = S n -> nth_error s n = Some x -> iloc_last s = Returns x.
Proof.
  intros Hlen Hn. unfold iloc_last.
  replace (length s - 1)%nat with n by lia. now rewrite Hn.
Qed.

Lemma iloc_last_cons (x : Q) (t : list Q) :
  exists y, iloc_last (x :: t) = Returns y.
Proof.
  unfold iloc_last.
  destruct (nth_error (x :: t) (length (x :: t) - 1)) as [y | ] eqn:E.
  - now exists y.
  - apply nth_error_None in E. cbn [length] in E. lia.
Qed.

Lemma iloc_first_nth (s : list Q) (x : Q) :
  nth_error s 0 = Some x -> iloc_first s = Returns x.
Proof. destruct s; cbn; [discriminate | congruence]. Qed.

(** The first row of [df[df['Year'] >= 2000]] is the first row of [df]
    with a year from 2000 on. *)
Lemma since_2000_first (df : DataFrame) (k : nat) (r : Row) :
  nth_error df k = Some r ->
  (2000 <= Year r)%Z ->
  (forall i r', (i < k)%nat -> nth_error df i = Some r' ->
                (Year r' < 2000)%Z) ->
  exists t, since_2000 df = r :: t.
Proof.
  revert k. induction df as [ | a df IH]; intros k Hk Hr Hbefore.
  - destruct k; discriminate Hk.
  - destruct k as [ | k].
    + cbn in Hk. injection Hk as ->. unfold since_2000. cbn [filter].
      replace (2000 <=? Year r)%Z with true
        by (symmetry; apply Z.leb_le; exact Hr).
      eexists. reflexivity.
    + unfold since_2000. cbn [filter].
      replace (2000 <=? Year a)%Z with false.
      * apply (IH k Hk Hr). intros i r' Hi Hn.
        apply (Hbefore (S i) r'); [lia | exact Hn].
      * symmetry. apply Z.leb_gt. apply (Hbefore 0%nat a); [lia | reflexivity].
Qed.

Lemma since_2000_none (df : DataFrame) :
  (forall r, In r df -> (Year r < 2000)%Z) -> since_2000 df = [].
Proof.
  induction df as [ | a df IH]; intros H; [reflexivity | ].
  unfold since_2000. cbn [filter].
  replace (2000 <=? Year a)%Z with false
    by (symmetry; apply Z.leb_gt; apply H; now left).
  apply IH. intros r Hr. apply H. now right.
Qed.

(** X15.  On a frame without a record from 2000 on, in particular on the
    empty frame, the function raises [IndexError]. *)
Theorem insights_need_a_record_from_2000 (self : EarthDataAnalyzer)
    (df : DataFrame) :
  (forall r, In r df -> (Year r < 2000)%Z) ->
  _generate_earth_insights self df = Raises IndexError.
Proof.
  intros H. unfold _generate_earth_insights.
  rewrite (since_2000_none df H).
  destruct df as [ | a df]; [reflexivity | ].
  cbn [map]. destruct (iloc_last_cons (Base_Value a) (map Base_Value df))
    as [y ->].
  reflexivity.
Qed.

Lemma insights_need_a_record_from_2000_witness :
  _generate_earth_insights (__init__ "co2")
    [mkRow 1999 10 1 1 0 1 1 1 10 1 1 10 20 10]
  = Raises IndexError.
Proof.
  apply insights_need_a_record_from_2000.
  intros r [<- | []]. simpl. lia.
Defined.

Section RunInsights.

Context {np : NumPy}.

Variable dt : string.

Lemma run_final_length (g : RandomState) :
  length (fst (generate_earth_data (__init__ dt) g)) = 176%nat.
Proof.
  rewrite generate_earth_data_fst, add_climate_events_map, length_map.
  apply run_frame_length.
Qed.

Lemma run_final_Year (g : RandomState) (i : nat) :
  (i < 176)%nat ->
  Year (overlay_row (__init__ dt)
          (data_row (fst (earth_data (__init__ dt) g)) i))
  = (1850 + Z.of_nat i)%Z.
Proof. intros Hi. rewrite overlay_row_Year. now apply run_row_Year. Qed.

(** The records from 2000 on of a run start with the record of 2000. *)
Lemma run_since_2000 (g : RandomState) :
  exists t,
    since_2000 (fst (generate_earth_data (__init__ dt) g))
    = overlay_row (__init__ dt)
        (data_row (fst (earth_data (__init__ dt) g)) 150) :: t.
Proof.
  apply (since_2000_first _ 150).
  - apply run_final_row. lia.
  - rewrite run_final_Year by lia. lia.
  - intros i r' Hi Hn. apply run_final_nth in Hn. destruct Hn as [_ ->].
    rewrite run_final_Year by lia. lia.
Qed.

(** The risk level of the last record of a run. *)
Lemma run_risk_2025 (g : RandomState) :
  84 <= Risk_Level (overlay_row (__init__ dt)
                      (data_row (fst (earth_data (__init__ dt) g)) 175))
     <= 100.
Proof.
  assert (Hi : (175 < 176)%nat) by lia.
  destruct (run_row_Risk_Level dt g 175 Hi) as [e [He HR]].
  pose proof (run_row_Year dt g 175 Hi) as HY.
  rewrite overlay_row_Risk_Level_from_1850 by (rewrite HY; lia).
  revert HR HY.
  generalize (data_row (fst (earth_data (__init__ dt) g)) 175).
  intros r HR HY. rewrite HR, HY. clear HR HY r.
  change (1850 + Z.of_nat 175)%Z with 2025%Z in *.
  cbn [Z.leb Z.compare Pos.compare Pos.compare_cont andb].
  assert (Hh : human_impact 2025 * 20 == 84) by reflexivity.
  assert (He1 : 1 <= e <= 2).
  { destruct He as [-> | ->]; split; vm_compute; discriminate. }
  pose proof (Py_min_le_l 100 (human_impact 2025 * 20 + (e - 1) * 50)) as H100.
  assert (H84 : 84 <= Py.min 100 (human_impact 2025 * 20 + (e - 1) * 50))
    by (apply Py_min_glb; lra).
  revert H84 H100.
  generalize (Py.min 100 (human_impact 2025 * 20 + (e - 1) * 50)).
  intros R H84 H100.
  destruct (String.eqb _ _); [ | lra].
  split; [apply Py_min_glb; lra | apply Py_min_le_l].
Qed.

(** X16.  On the frame of any run, whatever the variable type and the draws,
    the function raises nothing; the risk level it reports is that of
    the 2025 record, between 84 and 100, so the message is always the
    one for a high risk; and the human-impact figures are always 4.2
    and a growth of 236 per cent. *)
Theorem insights_of_a_run (g : RandomState) :
  exists ins : Insights,
    _generate_earth_insights (__init__ dt)
      (fst (generate_earth_data (__init__ dt) g)) = Returns ins
    /\ 84 <= current_risk ins <= 100
    /\ risk_message ins = "→ Niveau de risque ÉLEVÉ"
    /\ human_impact_current ins == 4.2
    /\ exists growth, human_growth ins = Some growth /\ growth == 236.
Proof.
  set (df := fst (generate_earth_data (__init__ dt) g)).
  set (row := fun i => overlay_row (__init__ dt)
                         (data_row (fst (earth_data (__init__ dt) g)) i)).
  assert (Hrow : forall i, (i < 176)%nat -> nth_error df i = Some (row i))
    by (intros i Hi; now apply run_final_row).
  assert (Hlast : forall f : Row -> Q,
            iloc_last (map f df) = Returns (f (row 175%nat))).
  { intros f. apply (iloc_last_nth _ 175).
    - rewrite length_map. apply run_final_length.
    - rewrite nth_error_map, Hrow by lia. reflexivity. }
  assert (Hfirst : forall f : Row -> Q,
            iloc_first (map f df) = Returns (f (row 0%nat))).
  { intros f. apply iloc_first_nth.
    rewrite nth_error_map, Hrow by lia. reflexivity. }
  destruct (run_since_2000 g) as [t H2000]. fold df (row 150%nat) in H2000.
  unfold _generate_earth_insights.
  rewrite H2000, !Hlast, !Hfirst. cbn [map iloc_first try_bind].
  eexists. split; [reflexivity | ].
  cbn [current_risk risk_message human_impact_current human_growth].
  pose proof (run_risk_2025 g) as HR. fold (row 175%nat) in HR.
  split; [exact HR | ].
  split.
  { destruct (Py_lt_spec 70 (Risk_Level (row 175%nat))) as [_ | Hn];
      [reflexivity | exfalso; lra]. }
  assert (H175 : Human_Impact (row 175%nat) = human_impact 2025).
  { unfold row.
    destruct (overlay_row_other_columns (__init__ dt)
                (data_row (fst (earth_data (__init__ dt) g)) 175))
      as [_ [_ [_ [_ [_ [Hh _]]]]]].
    rewrite Hh. apply (run_row_Human_Impact dt g 175). lia. }
  assert (H0 : Human_Impact (row 0%nat) = human_impact 1850).
  { unfold row.
    destruct (overlay_row_other_columns (__init__ dt)
                (data_row (fst (earth_data (__init__ dt) g)) 0))
      as [_ [_ [_ [_ [_ [Hh _]]]]]].
    rewrite Hh. apply (run_row_Human_Impact dt g 0). lia. }
  rewrite H175, H0. split; [reflexivity | ].
  exists ((human_impact 2025 / human_impact 1850 - 1) * 100).
  split; reflexivity.
Qed.

End RunInsights.
